(** * The OPF model object of PYPOWER, embedded from src/pypower/opf_model.py

    The class [opf_model] keeps four stores ([var], [nln], [lin], [cost]) of
    named blocks, each with an index ledger ([idx], [N], [NS], [order]) and
    a payload ([data]), plus a [userdata] mapping.  Every method but
    [display] (which only prints) is translated statement by statement into
    a monad that threads the object and the error log and can raise a
    Python exception; the state reached before an exception is kept, as in
    Python.  Source line numbers are given in the comments of each
    definition.

    Conventions: Python ints are [Z]; a dict keyed by block name is a
    [gmap string _]; a missing key is a [KeyError]; numpy one-dimensional
    arrays are lists and two-dimensional (sparse) arrays are lists of rows
    with their column count; the float64 entries are abstract. *)

From Stdlib Require Import ZArith Lia.
From stdpp Require Import base option list gmap strings pretty.

Local Open Scope Z_scope.

(** ** Python exceptions and results *)

Inductive exn : Type :=
| KeyError | TypeError | ValueError | IndexError | AttributeError.

Inductive result (A : Type) : Type :=
| Ok (a : A)
| Raise (e : exn).
Arguments Ok {A} a.
Arguments Raise {A} e.

Definition is_ok {A : Type} (r : result A) : bool :=
  match r with Ok _ => true | Raise _ => false end.

(** ** float64 scalars

    The entries of the numpy arrays are IEEE doubles.  Their arithmetic is
    kept abstract: the model only names the operations the source applies. *)

Class Float64 (F : Type) : Type := {
  f_zero : F;
  f_one : F;
  f_two : F;
  f_inf : F;
  f_neg : F -> F;
  f_add : F -> F -> F;
  f_sub : F -> F -> F;
  f_mul : F -> F -> F;
  f_div : F -> F -> F;
  f_ltb : F -> F -> bool;
  f_eqb : F -> F -> bool
}.

(** Selector strings accepted by [getattr(self, selector)] in [getN]. *)
Inductive selector : Type := sel_var | sel_lin | sel_nln | sel_cost.

(** The [{i1, iN, N}] maps of one store: [self.<store>["idx"]]. *)
Record idx_t : Type := Idx {
  idx_i1 : gmap string Z;
  idx_iN : gmap string Z;
  idx_N : gmap string Z
}.

(** The bookkeeping entries of one store.  A field is [None] when the key is
    absent from the dict, so that reading it raises [KeyError].  [order] is
    a mapping from positions to names: its only write is
    [order[NS] = name] with [NS] just incremented, a position that a list
    would not have yet. *)
Record ledger : Type := Ledger {
  l_idx : option idx_t;            (* ["idx"] *)
  l_N : option Z;                  (* ["N"] *)
  l_NS : option Z;                 (* ["NS"] *)
  l_order : option (gmap Z string) (* ["order"], written as order[NS] = name *)
}.

(** The list of variable sets attached to a linear or cost block.  The source
    either stores the list passed by the caller or, when none is given,
    the object [self.var["order"]] itself (lines 96 and 178): the second
    case is a reference to the live mapping, not a copy of it. *)
Inductive varsets_t : Type :=
| VsList (names : list string)
| VsVarOrder.

Section Model.
Context {F : Type} {FO : Float64 F} {PPC V : Type}.

Abbreviation vec := (list F).

(** A two-dimensional array (scipy sparse or dense): its column count and
    its rows. *)
Record matrix : Type := Matrix {
  m_ncols : nat;
  m_rows : list (list F)
}.

Definition m_nrows (A : matrix) : nat := length (m_rows A).

Record var_data : Type := VarData {
  d_v0 : gmap string vec;
  d_vl : gmap string vec;
  d_vu : gmap string vec
}.

Record lin_data : Type := LinData {
  d_A : gmap string matrix;
  d_l : gmap string vec;
  d_u : gmap string vec;
  d_vs : gmap string varsets_t
}.

Record cost_data : Type := CostData {
  c_N : gmap string matrix;
  c_Cw : gmap string vec;
  c_vs : gmap string varsets_t;
  c_H : gmap string matrix;
  c_dd : gmap string vec;
  c_rh : gmap string vec;
  c_kk : gmap string vec;
  c_mm : gmap string vec
}.

(** The [cp] dict handed to [add_costs]: [N] and [Cw] are mandatory, the
    other keys may be missing. *)
Record cost_struct : Type := CP {
  cp_N : matrix;
  cp_Cw : vec;
  cp_H : option matrix;
  cp_dd : option vec;
  cp_rh : option vec;
  cp_kk : option vec;
  cp_mm : option vec
}.

(** The aggregate saved by [build_cost_params] in [self.cost["params"]]. *)
Record params : Type := Params {
  p_N : matrix;
  p_Cw : vec;
  p_H : matrix;
  p_dd : vec;
  p_rh : vec;
  p_kk : vec;
  p_mm : vec
}.

(** The instance attributes of an [opf_model].  [var_dat], [lin_dat] and
    [cost_dat] are the ["data"] entries of the three stores that have one,
    [cost_params] is [self.cost["params"]]. *)
Record opf_model : Type := OM {
  ppc : PPC;
  var : ledger;
  var_dat : option var_data;
  nln : ledger;
  lin : ledger;
  lin_dat : option lin_data;
  cost : ledger;
  cost_dat : option cost_data;
  cost_params : option params;
  userdata : gmap string V
}.

(** What a run can observe besides the object: the messages handed to
    [logger.error]. *)
Record world : Type := World {
  om : opf_model;
  errlog : list string
}.

(** ** The monad: state that survives an exception *)

Definition M (A : Type) : Type := world -> result A * world.

#[export] Instance M_ret : MRet M := fun A a w => (Ok a, w).
#[export] Instance M_bind : MBind M := fun A B f m w =>
  match m w with
  | (Ok a, w') => f a w'
  | (Raise e, w') => (Raise e, w')
  end.

#[export] Instance M_fmap : FMap M := fun A B f m w =>
  match m w with
  | (Ok a, w') => (Ok (f a), w')
  | (Raise e, w') => (Raise e, w')
  end.

Definition raise {A : Type} (e : exn) : M A := fun w => (Raise e, w).

(** [d[k]] on a dict: [KeyError] when the key is absent. *)
Definition getitem {A : Type} (o : option A) : M A :=
  match o with Some a => mret a | None => raise KeyError end.

Definition read_self : M opf_model := fun w => (Ok (om w), w).

Definition write_self (o : opf_model) : M unit :=
  fun w => (Ok tt, World o (errlog w)).

Definition logger_error (msg : string) : M unit :=
  fun w => (Ok tt, World (om w) (errlog w ++ [msg])).

Definition when (b : bool) (m : M unit) : M unit := if b then m else mret tt.

(** [for x in xs: acc = body x acc] *)
Fixpoint for_each {A S : Type} (xs : list A) (body : A -> S -> M S) (acc : S) : M S :=
  match xs with
  | [] => mret acc
  | x :: rest => acc' ← body x acc; for_each rest body acc'
  end.

(** [range(n)] *)
Definition py_range (n : Z) : list Z := seqZ 0 n.

(** ** Attribute access on the object *)

Definition getattr (o : opf_model) (s : selector) : ledger :=
  match s with
  | sel_var => var o
  | sel_lin => lin o
  | sel_nln => nln o
  | sel_cost => cost o
  end.

Definition set_ledger (s : selector) (l : ledger) (o : opf_model) : opf_model :=
  match s with
  | sel_var => OM (ppc o) l (var_dat o) (nln o) (lin o) (lin_dat o) (cost o) (cost_dat o) (cost_params o) (userdata o)
  | sel_nln => OM (ppc o) (var o) (var_dat o) l (lin o) (lin_dat o) (cost o) (cost_dat o) (cost_params o) (userdata o)
  | sel_lin => OM (ppc o) (var o) (var_dat o) (nln o) l (lin_dat o) (cost o) (cost_dat o) (cost_params o) (userdata o)
  | sel_cost => OM (ppc o) (var o) (var_dat o) (nln o) (lin o) (lin_dat o) l (cost_dat o) (cost_params o) (userdata o)
  end.

Definition set_var_dat (d : var_data) (o : opf_model) : opf_model :=
  OM (ppc o) (var o) (Some d) (nln o) (lin o) (lin_dat o) (cost o) (cost_dat o) (cost_params o) (userdata o).

Definition set_lin_dat (d : lin_data) (o : opf_model) : opf_model :=
  OM (ppc o) (var o) (var_dat o) (nln o) (lin o) (Some d) (cost o) (cost_dat o) (cost_params o) (userdata o).

Definition set_cost_dat (d : cost_data) (o : opf_model) : opf_model :=
  OM (ppc o) (var o) (var_dat o) (nln o) (lin o) (lin_dat o) (cost o) (Some d) (cost_params o) (userdata o).

Definition set_cost_params (p : params) (o : opf_model) : opf_model :=
  OM (ppc o) (var o) (var_dat o) (nln o) (lin o) (lin_dat o) (cost o) (cost_dat o) (Some p) (userdata o).

Definition set_userdata (u : gmap string V) (o : opf_model) : opf_model :=
  OM (ppc o) (var o) (var_dat o) (nln o) (lin o) (lin_dat o) (cost o) (cost_dat o) (cost_params o) u.

(** Reads: [self.<s>["idx"]], [self.<s>["N"]], [self.<s>["NS"]],
    [self.<s>["order"]]. *)
Definition rd_idx (s : selector) : M idx_t :=
  o ← read_self; getitem (l_idx (getattr o s)).
Definition rd_N (s : selector) : M Z :=
  o ← read_self; getitem (l_N (getattr o s)).
Definition rd_NS (s : selector) : M Z :=
  o ← read_self; getitem (l_NS (getattr o s)).
Definition rd_order (s : selector) : M (gmap Z string) :=
  o ← read_self; getitem (l_order (getattr o s)).

(** Writes into the ledger.  An item assignment [d[k] = v] first reads the
    dict [d] (which may raise), then stores. *)
Definition wr_idx (s : selector) (upd : idx_t -> idx_t) : M unit :=
  o ← read_self;
  let l := getattr o s in
  idx ← getitem (l_idx l);
  write_self (set_ledger s (Ledger (Some (upd idx)) (l_N l) (l_NS l) (l_order l)) o).

Definition set_i1 (s : selector) (name : string) (v : Z) : M unit :=
  wr_idx s (fun idx => Idx (<[name := v]> (idx_i1 idx)) (idx_iN idx) (idx_N idx)).
Definition set_iN (s : selector) (name : string) (v : Z) : M unit :=
  wr_idx s (fun idx => Idx (idx_i1 idx) (<[name := v]> (idx_iN idx)) (idx_N idx)).
Definition set_Nof (s : selector) (name : string) (v : Z) : M unit :=
  wr_idx s (fun idx => Idx (idx_i1 idx) (idx_iN idx) (<[name := v]> (idx_N idx))).

(** [self.<s>["N"] = v] and [self.<s>["NS"] = v]: plain stores of a key. *)
Definition wr_N (s : selector) (v : Z) : M unit :=
  o ← read_self;
  let l := getattr o s in
  write_self (set_ledger s (Ledger (l_idx l) (Some v) (l_NS l) (l_order l)) o).
Definition wr_NS (s : selector) (v : Z) : M unit :=
  o ← read_self;
  let l := getattr o s in
  write_self (set_ledger s (Ledger (l_idx l) (l_N l) (Some v) (l_order l)) o).

(** [self.<s>["order"][self.<s>["NS"]] = name]: the target mapping is
    evaluated first, then the subscript. *)
Definition append_order (s : selector) (name : string) : M unit :=
  o ← read_self;
  let l := getattr o s in
  ord ← getitem (l_order l);
  ns ← getitem (l_NS l);
  write_self (set_ledger s (Ledger (l_idx l) (l_N l) (l_NS l) (Some (<[ns := name]> ord))) o).

Definition wr_var_dat (upd : var_data -> var_data) : M unit :=
  o ← read_self; d ← getitem (var_dat o); write_self (set_var_dat (upd d) o).
Definition wr_lin_dat (upd : lin_data -> lin_data) : M unit :=
  o ← read_self; d ← getitem (lin_dat o); write_self (set_lin_dat (upd d) o).
Definition wr_cost_dat (upd : cost_data -> cost_data) : M unit :=
  o ← read_self; d ← getitem (cost_dat o); write_self (set_cost_dat (upd d) o).

(** [name in d] *)
Definition contains {A : Type} (d : gmap string A) (name : string) : bool :=
  bool_decide (is_Some (d !! name)).

(** ** numpy helpers on one-dimensional arrays *)

Definition len {A : Type} (v : list A) : Z := Z.of_nat (length v).

(** [zeros(n)], [ones(n)]: a negative dimension is a [ValueError].  numpy
    also refuses a length it cannot allocate; that limit is the machine's
    and is not part of this definition, which stands for numpy at the
    lengths the machine can hold. *)
Definition np_full (x : F) (n : Z) : M vec :=
  if n <? 0 then raise ValueError else mret (replicate (Z.to_nat n) x).
Definition zeros (n : Z) : M vec := np_full f_zero n.
Definition ones (n : Z) : M vec := np_full f_one n.
(** [c * v] for a scalar [c] *)
Definition scale (c : F) (v : vec) : vec := map (f_mul c) v.

(** ** __init__ (lines 35-43) *)

Definition empty_dict : ledger := Ledger None None None None.

Definition init (p : PPC) : opf_model :=
  OM p            (* self.ppc = ppc *)
     empty_dict None   (* self.var = {} *)
     empty_dict        (* self.nln = {} *)
     empty_dict None   (* self.lin = {} *)
     empty_dict None None (* self.cost = {} *)
     ∅.               (* self.userdata = {} *)

(** ** add_vars (lines 241-278) *)

Definition default_vec (v : option vec) (dflt : M vec) : M vec :=
  match v with
  | None => dflt
  | Some a => if len a =? 0 then dflt else mret a
  end.

Definition add_vars (name : string) (N : Z) (v0 vl vu : option vec) : M unit :=
  (* 252 *) idx ← rd_idx sel_var;
  (* 253 *) when (contains (idx_N idx) name)
              (logger_error ("opf_model.add_vars: variable set named " +:+ name +:+ " already exists"));;
  (* 255 *) v0 ← default_vec v0 (zeros N);
  (* 258 *) vl ← default_vec vl (scale (f_neg f_inf) <$> ones N);
  (* 261 *) vu ← default_vec vu (scale f_inf <$> ones N);
  (* 266 *) t ← rd_N sel_var; set_i1 sel_var name (t + 1);;
  (* 267 *) t ← rd_N sel_var; set_iN sel_var name (t + N);;
  (* 268 *) set_Nof sel_var name N;;
  (* 269 *) wr_var_dat (fun d => VarData (<[name := v0]> (d_v0 d)) (d_vl d) (d_vu d));;
  (* 270 *) wr_var_dat (fun d => VarData (d_v0 d) (<[name := vl]> (d_vl d)) (d_vu d));;
  (* 271 *) wr_var_dat (fun d => VarData (d_v0 d) (d_vl d) (<[name := vu]> (d_vu d)));;
  (* 274 *) idx ← rd_idx sel_var; e ← getitem (idx_iN idx !! name); wr_N sel_var e;;
  (* 275 *) ns ← rd_NS sel_var; wr_NS sel_var (ns + 1);;
  (* 278 *) append_order sel_var name.

(** ** Variable-set lists *)

(** A key met while iterating: a name, or an integer position when the
    iterated object is the [order] mapping itself. *)
Inductive pykey : Type := KStr (s : string) | KInt (k : Z).

(** Lookup of such a key in a dict whose keys are block names. *)
Definition lookup_key {A : Type} (d : gmap string A) (k : pykey) : option A :=
  match k with KStr s => d !! s | KInt _ => None end.

(** [l[k]] on a Python list *)
Definition list_getitem {A : Type} (l : list A) (k : Z) : M A :=
  let k' := if k <? 0 then k + len l else k in
  if (k' <? 0) || (len l <=? k') then raise IndexError
  else match l !! Z.to_nat k' with Some a => mret a | None => raise IndexError end.

(** [len(varsets)] *)
Definition vs_len (vs : varsets_t) : M Z :=
  match vs with
  | VsList names => mret (len names)
  | VsVarOrder => ord ← rd_order sel_var; mret (Z.of_nat (size ord))
  end.

(** [varsets[k]] *)
Definition vs_getitem (vs : varsets_t) (k : Z) : M string :=
  match vs with
  | VsList names => list_getitem names k
  | VsVarOrder => ord ← rd_order sel_var; getitem (ord !! k)
  end.

(** [for v in vsl]: a list yields its names, a mapping yields its keys. *)
Definition vs_iter (vs : varsets_t) : M (list pykey) :=
  match vs with
  | VsList names => mret (KStr <$> names)
  | VsVarOrder => ord ← rd_order sel_var; mret (KInt <$> (map fst (map_to_list ord)))
  end.

(** Lines 85-86/95-96 and 174-178: [None] becomes [[]], and an empty list
    becomes the object [self.var["order"]]. *)
Definition default_varsets (varsets : option (list string)) : M varsets_t :=
  let varsets := default [] varsets in
  if len varsets =? 0 then _ ← rd_order sel_var; mret VsVarOrder
  else mret (VsList varsets).

(** Lines 102-104 and 183-185 *)
Definition count_vars (vs : varsets_t) : M Z :=
  n ← vs_len vs;
  for_each (py_range n)
    (fun k nv =>
       idx ← rd_idx sel_var;
       v ← vs_getitem vs k;
       c ← getitem (idx_N idx !! v);
       mret (nv + c))
    0.

(** ** add_constraints (lines 46-123) *)

(** The call shapes of [add_constraints(name, AorN, l, u=None, varsets=None)]:
    with [u] omitted the third argument is a count, otherwise a matrix. *)
Inductive constraint_args : Type :=
| Nonlinear (N : Z)
| Linear (A : matrix) (l u : vec) (varsets : option (list string)).

(** [self["lin"]] (lines 110, 111): the class defines no [__getitem__], so
    subscripting the object itself is a [TypeError]. *)
Definition self_getitem (key : string) : M ledger := raise TypeError.

Definition newline : string := String (Ascii.ascii_of_nat 10) EmptyString.

Definition add_constraints (name : string) (args : constraint_args) : M unit :=
  match args with
  | Nonlinear AorN =>
    (* 66 *) idx ← rd_idx sel_nln;
    (* 67 *) when (contains (idx_N idx) name)
               (logger_error ("opf_model.add_constraints: nonlinear constraint set named '"
                              +:+ name +:+ "' already exists"));;
    (* 70 *) t ← rd_N sel_nln; set_i1 sel_nln name (t + 1);;
    (* 71 *) t ← rd_N sel_nln; set_iN sel_nln name (t + AorN);;
    (* 72 *) set_Nof sel_nln name AorN;;
    (* 75 *) idx ← rd_idx sel_nln; e ← getitem (idx_iN idx !! name); wr_N sel_nln e;;
    (* 76 *) ns ← rd_NS sel_nln; wr_NS sel_nln (ns + 1);;
    (* 79 *) append_order sel_nln name
  | Linear AorN l u varsets =>
    (* 82 *) idx ← rd_idx sel_lin;
    (* 83 *) when (contains (idx_N idx) name)
               (logger_error ("opf_model.add_constraints: linear constraint set named "
                              +:+ name +:+ " already exists"));;
    (* 88 *) let N := Z.of_nat (m_nrows AorN) in
             let M := Z.of_nat (m_ncols AorN) in
    (* 89 *) l ← (if len l =? 0 then scale (f_neg f_inf) <$> ones N else mret l);
    (* 92 *) u ← (if len u =? 0 then scale f_inf <$> ones N else mret u);
    (* 85, 95 *) varsets ← default_varsets varsets;
    (* 99 *) when (negb (len l =? N) || negb (len u =? N))
               (logger_error "opf_model.add_constraints: sizes of A, l and u must match");;
    (* 102 *) nv ← count_vars varsets;
    (* 106 *) when (negb (M =? nv))
               (logger_error ("opf_model.add_constraints: number of columns of A does not match"
                              +:+ newline +:+ "number of variables, A is " +:+ pretty N +:+ " x "
                              +:+ pretty M +:+ ", nv = " +:+ pretty nv +:+ newline));;
    (* 110 *) s ← self_getitem "lin"; t ← getitem (l_N s); set_i1 sel_lin name (t + 1);;
    (* 111 *) s ← self_getitem "lin"; t ← getitem (l_N s); set_iN sel_lin name (t + N);;
    (* 112 *) set_Nof sel_lin name N;;
    (* 113 *) wr_lin_dat (fun d => LinData (<[name := AorN]> (d_A d)) (d_l d) (d_u d) (d_vs d));;
    (* 114 *) wr_lin_dat (fun d => LinData (d_A d) (<[name := l]> (d_l d)) (d_u d) (d_vs d));;
    (* 115 *) wr_lin_dat (fun d => LinData (d_A d) (d_l d) (<[name := u]> (d_u d)) (d_vs d));;
    (* 116 *) wr_lin_dat (fun d => LinData (d_A d) (d_l d) (d_u d) (<[name := varsets]> (d_vs d)));;
    (* 119 *) idx ← rd_idx sel_lin; e ← getitem (idx_iN idx !! name); wr_N sel_lin e;;
    (* 120 *) ns ← rd_NS sel_lin; wr_NS sel_lin (ns + 1);;
    (* 123 *) append_order sel_lin name
  end.

(** ** add_costs (lines 126-238) *)

(** [sparse(nw, nx)] (line 189): the second positional argument of
    [csr_matrix] is [shape], and an integer is not a shape. *)
Definition sparse_int_int (nw nx : Z) : M matrix := raise TypeError.

(** The guards of lines 196-209 are written [key in cp & e].  Python's [&]
    binds tighter than [in] and [!=], so the operand of [in] is [cp & e']
    where [e'] starts by reading [cp[key]]: a [KeyError] when the key is
    missing, and otherwise the [&] between a dict and a number is a
    [TypeError].  No guard yields a value, so the messages that follow them
    in [add_costs] are never built; they are given without their size
    arguments. *)
Definition in_dict_and {A : Type} (field : option A) : M bool :=
  _ ← getitem field; raise TypeError.

Definition add_costs (name : string) (cp : cost_struct) (varsets : option (list string)) : M unit :=
  (* 171 *) idx ← rd_idx sel_cost;
  (* 172 *) when (contains (idx_N idx) name)
              (logger_error ("opf_model.add_costs: cost set named " +:+ name +:+ " already exists"));;
  (* 174, 177 *) varsets ← default_varsets varsets;
  (* 180 *) let nw := Z.of_nat (m_nrows (cp_N cp)) in
            let nx := Z.of_nat (m_ncols (cp_N cp)) in
  (* 183 *) nv ← count_vars varsets;
  (* 187 *) cp ← (if negb (nx =? nv) then
                    if nw =? 0 then
                      N ← sparse_int_int nw nx;
                      mret (CP N (cp_Cw cp) (cp_H cp) (cp_dd cp) (cp_rh cp) (cp_kk cp) (cp_mm cp))
                    else
                      logger_error ("opf_model.add_costs: number of columns in N (" +:+ pretty nw
                                    +:+ " x " +:+ pretty nx +:+ ") does not match" +:+ newline
                                    +:+ "number of variables (" +:+ pretty nv +:+ ")" +:+ newline);;
                      mret cp
                  else mret cp);
  (* 193 *) (* the message has four %d and three arguments: formatting it raises *)
            (if negb (len (cp_Cw cp) =? nw) then raise TypeError else mret tt);;
  (* 196 *) b ← in_dict_and (cp_H cp);
            when b (logger_error "opf_model.add_costs: both dimensions of H must match the number of rows in N");;
  (* 199 *) b ← in_dict_and (cp_dd cp);
            when b (logger_error "opf_model.add_costs: number of rows of dd and N must match");;
  (* 202 *) b ← in_dict_and (cp_rh cp);
            when b (logger_error "opf_model.add_costs: number of rows of rh and N must match");;
  (* 205 *) b ← in_dict_and (cp_kk cp);
            when b (logger_error "opf_model.add_costs: number of rows of kk and N must match");;
  (* 208 *) b ← in_dict_and (cp_mm cp);
            when b (logger_error "opf_model.add_costs: number of rows of mm and N must match");;
  (* 212 *) t ← rd_N sel_cost; set_i1 sel_cost name (t + 1);;
  (* 213 *) t ← rd_N sel_cost; set_iN sel_cost name (t + nw);;
  (* 214 *) set_Nof sel_cost name nw;;
  (* 215 *) wr_cost_dat (fun d => CostData (<[name := cp_N cp]> (c_N d)) (c_Cw d) (c_vs d) (c_H d)
                                          (c_dd d) (c_rh d) (c_kk d) (c_mm d));;
  (* 216 *) wr_cost_dat (fun d => CostData (c_N d) (<[name := cp_Cw cp]> (c_Cw d)) (c_vs d) (c_H d)
                                          (c_dd d) (c_rh d) (c_kk d) (c_mm d));;
  (* 217 *) wr_cost_dat (fun d => CostData (c_N d) (c_Cw d) (<[name := varsets]> (c_vs d)) (c_H d)
                                          (c_dd d) (c_rh d) (c_kk d) (c_mm d));;
  (* 218 *) match cp_H cp with
            | Some H => wr_cost_dat (fun d => CostData (c_N d) (c_Cw d) (c_vs d) (<[name := H]> (c_H d))
                                                      (c_dd d) (c_rh d) (c_kk d) (c_mm d))
            | None => mret tt
            end;;
  (* 221 *) match cp_dd cp with
            | Some x => wr_cost_dat (fun d => CostData (c_N d) (c_Cw d) (c_vs d) (c_H d)
                                                      (<["name" := x]> (c_dd d)) (c_rh d) (c_kk d) (c_mm d))
            | None => mret tt
            end;;
  (* 224 *) match cp_rh cp with
            | Some x => wr_cost_dat (fun d => CostData (c_N d) (c_Cw d) (c_vs d) (c_H d)
                                                      (c_dd d) (<["name" := x]> (c_rh d)) (c_kk d) (c_mm d))
            | None => mret tt
            end;;
  (* 227 *) match cp_kk cp with
            | Some x => wr_cost_dat (fun d => CostData (c_N d) (c_Cw d) (c_vs d) (c_H d)
                                                      (c_dd d) (c_rh d) (<["name" := x]> (c_kk d)) (c_mm d))
            | None => mret tt
            end;;
  (* 230 *) match cp_mm cp with
            | Some x => wr_cost_dat (fun d => CostData (c_N d) (c_Cw d) (c_vs d) (c_H d)
                                                      (c_dd d) (c_rh d) (c_kk d) (<["name" := x]> (c_mm d)))
            | None => mret tt
            end;;
  (* 234 *) idx ← rd_idx sel_cost; e ← getitem (idx_iN idx !! "name"); wr_N sel_cost e;;
  (* 235 *) ns ← rd_NS sel_cost; wr_NS sel_cost (ns + 1);;
  (* 238 *) append_order sel_cost name.

(** ** Array helpers (numpy / scipy.sparse) *)

(** [a[i:j]] selects, on a sequence of length [n], the positions from
    [clip n i] up to [clip n j] (Python's [slice.indices]). *)
Definition clip (n i : Z) : Z := if i <? 0 then Z.max (i + n) 0 else Z.min i n.

Inductive pyslice : Type :=
| SAll                 (* [:] *)
| SRange (i j : Z).    (* [i:j] *)

(** First position and number of positions selected by a slice. *)
Definition slice_span (n : nat) (sl : pyslice) : nat * nat :=
  match sl with
  | SAll => (0%nat, n)
  | SRange i j =>
      let a := clip (Z.of_nat n) i in
      let b := clip (Z.of_nat n) j in
      (Z.to_nat a, Z.to_nat (b - a))
  end.

(** Broadcasting a sequence to [n] items: same length, or a single item. *)
Definition bcast {A : Type} (n : nat) (l : list A) : option (list A) :=
  if decide (length l = n) then Some l
  else match l with [x] => Some (replicate n x) | _ => None end.

Definition splice {A : Type} (s c : nat) (old new : list A) : list A :=
  take s old ++ new ++ drop (s + c) old.

(** [a[i:j] = b] on a one-dimensional array *)
Definition np_setslice (a : vec) (i j : Z) (b : vec) : M vec :=
  let '(s, c) := slice_span (length a) (SRange i j) in
  match bcast c b with
  | Some b' => mret (splice s c a b')
  | None => raise ValueError
  end.

(** [a[idx]] with a list of positions: negative positions count from the
    end, a position outside the array is an [IndexError]. *)
Definition np_take {A : Type} (a : list A) (idx : list Z) : M (list A) :=
  for_each idx (fun k acc => x ← list_getitem a k; mret (acc ++ [x])) [].

(** Elementwise binary operation with broadcasting *)
Definition np_zip {A B C : Type} (f : A -> B -> C) (a : list A) (b : list B) : M (list C) :=
  if decide (length a = length b) then mret (zip_with f a b)
  else match a, b with
       | [x], _ => mret (map (f x) b)
       | _, [y] => mret (map (fun x => f x y) a)
       | _, _ => raise ValueError
       end.

(** [flatnonzero] *)
Definition find (b : list bool) : list Z :=
  omap (fun p : Z * bool => if snd p then Some (fst p) else None) (zip (py_range (len b)) b).

(** Truth value of a boolean array (used by a chained comparison) *)
Definition array_truth (b : list bool) : M bool :=
  match b with
  | [] => mret false
  | [x] => mret x
  | _ => raise ValueError
  end.

(** [sparse((n, m))]: the all-zero matrix *)
Definition sparse_zeros (n m : Z) : M matrix :=
  if (n <? 0) || (m <? 0) then raise ValueError
  else mret (Matrix (Z.to_nat m) (replicate (Z.to_nat n) (replicate (Z.to_nat m) f_zero))).

(** [A[rs, cs]] with two slices *)
Definition sp_slice (A : matrix) (rs cs : pyslice) : matrix :=
  let '(r0, rc) := slice_span (m_nrows A) rs in
  let '(c0, cc) := slice_span (m_ncols A) cs in
  Matrix cc (map (fun row => take cc (drop c0 row)) (take rc (drop r0 (m_rows A)))).

(** [A[idx, :]] with a list of row positions *)
Definition sp_take_rows (A : matrix) (idx : list Z) : M matrix :=
  Matrix (m_ncols A) <$> np_take (m_rows A) idx.

(** [T[rs, cs] = X]: the shape of [X] must be that of the selected block,
    up to broadcasting of a dimension of size one over a selection that is
    not empty; otherwise [ValueError].  scipy does not spread a single row
    or column over an empty selection, it raises. *)
Definition sp_setslice (T : matrix) (rs cs : pyslice) (X : matrix) : M matrix :=
  let '(r0, rc) := slice_span (m_nrows T) rs in
  let '(c0, cc) := slice_span (m_ncols T) cs in
  if bool_decide ((m_nrows X = rc \/ (m_nrows X = 1%nat /\ rc <> 0%nat)) /\
                  (m_ncols X = cc \/ (m_ncols X = 1%nat /\ cc <> 0%nat))) then
    match bcast rc (m_rows X) ≫= mapM (bcast cc) with
    | Some xrows =>
        mret (Matrix (m_ncols T)
                (splice r0 rc (m_rows T)
                   (zip_with (fun old new => splice c0 cc old new)
                      (take rc (drop r0 (m_rows T))) xrows)))
    | None => raise ValueError
    end
  else raise ValueError.

Definition dot (a b : vec) : F := foldr f_add f_zero (zip_with f_mul a b).

(** [A * x] for a sparse matrix and a one-dimensional array *)
Definition sp_matvec (A : matrix) (x : vec) : M vec :=
  if decide (length x = m_ncols A) then mret (map (fun row => dot row x) (m_rows A))
  else raise ValueError.

Definition column (A : matrix) (j : nat) : vec :=
  map (fun row => default f_zero (row !! j)) (m_rows A).

Definition transpose (A : matrix) : matrix :=
  Matrix (m_nrows A) (map (column A) (seq 0 (m_ncols A))).

(** [x * A] for a one-dimensional array and a sparse matrix *)
Definition sp_vecmat (x : vec) (A : matrix) : M vec :=
  if decide (length x = m_nrows A) then mret (map (fun col => dot x col) (m_rows (transpose A)))
  else raise ValueError.

(** Sum and product of two sparse matrices *)
Definition sp_add (A B : matrix) : M matrix :=
  if bool_decide (m_nrows A = m_nrows B /\ m_ncols A = m_ncols B) then
    mret (Matrix (m_ncols A) (zip_with (zip_with f_add) (m_rows A) (m_rows B)))
  else raise ValueError.

Definition sp_mul (A B : matrix) : M matrix :=
  if decide (m_ncols A = m_nrows B) then
    mret (Matrix (m_ncols B)
            (map (fun row => map (fun col => dot row col) (m_rows (transpose B))) (m_rows A)))
  else raise ValueError.

(** [sparse((data, (idx, idx)), (n, n))]: a diagonal matrix in coordinate
    form; entries given twice add up. *)
Definition sp_diag (data : vec) (idx : list Z) (n : nat) : M matrix :=
  if bool_decide (length data = length idx /\ Forall (fun k => 0 <= k < Z.of_nat n) idx) then
    mret (Matrix n
            (map (fun i =>
                    map (fun j =>
                           if decide (i = j) then
                             foldr f_add f_zero
                               (omap (fun p : Z * F => if decide (fst p = Z.of_nat i) then Some (snd p) else None)
                                     (zip idx data))
                           else f_zero)
                        (seq 0 n))
                 (seq 0 n)))
  else raise ValueError.

(** ** build_cost_params (lines 281-343) *)

(** Lines 318-323 and 656-661: the column scatter of one block.  [T] is the
    matrix being filled, [rs] the rows of [T] it goes to, [Ak] the block's
    own matrix. *)
Definition scatter_columns (vsl : varsets_t) (Ak : matrix) (rs : pyslice) (T : matrix) : M matrix :=
  keys ← vs_iter vsl;
  snd <$> for_each keys
    (fun v (st : Z * matrix) =>
       let '(kN, T) := st in
       idx ← rd_idx sel_var; j1 ← getitem (lookup_key (idx_i1 idx) v);
       idx ← rd_idx sel_var; jN ← getitem (lookup_key (idx_iN idx) v);
       let k1 := kN + 1 in
       idx ← rd_idx sel_var; n ← getitem (lookup_key (idx_N idx) v);
       let kN := kN + n in
       T ← sp_setslice T rs (SRange j1 jN) (sp_slice Ak SAll (SRange k1 kN));
       mret (kN, T))
    (0, T).

Definition rd_cost_dat : M cost_data := o ← read_self; getitem (cost_dat o).

(** [if name in data[field]: target[i1:iN] = data[field][name]] *)
Definition fill_optional (field : cost_data -> gmap string vec) (name : string)
    (i1 iN : Z) (target : vec) : M vec :=
  d ← rd_cost_dat;
  if contains (field d) name then
    d ← rd_cost_dat; x ← getitem (field d !! name); np_setslice target i1 iN x
  else mret target.

Definition build_cost_params : M unit :=
  (* 292 *) nw ← rd_N sel_cost;
  (* 301 *) nx ← rd_N sel_var; N ← sparse_zeros nw nx;
  (* 302 *) Cw ← zeros nw;
  (* 303 *) H ← sparse_zeros nw nw;
  (* 304 *) dd ← ones nw;
  (* 305 *) let rh := Cw in
  (* 306 *) let kk := Cw in
  (* 307 *) let mm := dd in
  (* 310 *) ns ← rd_NS sel_cost;
  p ← for_each (py_range ns)
    (fun k p =>
       (* 311 *) ord ← rd_order sel_cost; name ← getitem (ord !! k);
       (* 312 *) d ← rd_cost_dat; Nk ← getitem (c_N d !! name);
       (* 313 *) idx ← rd_idx sel_cost; i1 ← getitem (idx_i1 idx !! name);
       (* 314 *) idx ← rd_idx sel_cost; iN ← getitem (idx_iN idx !! name);
       (* 315 *) idx ← rd_idx sel_cost; n ← getitem (idx_N idx !! name);
       if negb (n =? 0) then
         (* 316 *) d ← rd_cost_dat; vsl ← getitem (c_vs d !! name);
         (* 317-323 *) N ← scatter_columns vsl Nk (SRange i1 iN) (p_N p);
         (* 325 *) d ← rd_cost_dat; x ← getitem (c_Cw d !! name); Cw ← np_setslice (p_Cw p) i1 iN x;
         (* 326 *) d ← rd_cost_dat;
                   H ← (if contains (c_H d) name then
                          d ← rd_cost_dat; Hk ← getitem (c_H d !! name);
                          sp_setslice (p_H p) (SRange i1 iN) (SRange i1 iN) Hk
                        else mret (p_H p));
         (* 329 *) dd ← fill_optional c_dd name i1 iN (p_dd p);
         (* 332 *) rh ← fill_optional c_rh name i1 iN (p_rh p);
         (* 335 *) kk ← fill_optional c_kk name i1 iN (p_kk p);
         (* 338 *) mm ← fill_optional c_mm name i1 iN (p_mm p);
         mret (Params N Cw H dd rh kk mm)
       else mret p)
    (Params N Cw H dd rh kk mm);
  (* 342 *) o ← read_self; write_self (set_cost_params p o).

(** ** getN (lines 573-596) *)

(** [name in d] and [d[name]] when [name] may be Python's [None]: the keys
    of [d] are block names, so [None] is never one of them. *)
Definition lookup_name {A : Type} (d : gmap string A) (name : option string) : option A :=
  match name with Some n => d !! n | None => None end.

Definition getN (sel : selector) (name : option string) : M Z :=
  if bool_decide (name <> None) then
    (* 590 *) rd_N sel
  else
    (* 592 *) idx ← rd_idx sel;
    if bool_decide (is_Some (lookup_name (idx_N idx) name)) then
      (* 593 *) idx ← rd_idx sel; getitem (lookup_name (idx_N idx) name)
    else
      (* 595 *) mret 0.

(** ** get_cost_params (lines 491-523) *)

(** [cp[key] = f(cp[key])], where [cp] is the object stored in
    [self.cost["params"]] *)
Definition upd_params (upd : params -> M params) : M unit :=
  o ← read_self; p ← getitem (cost_params o);
  p' ← upd p;
  o ← read_self; write_self (set_cost_params p' o).

Definition get_cost_params (name : option string) : M params :=
  (* 507 *) o ← read_self;
            when (negb (bool_decide (is_Some (cost_params o))))
              (logger_error "opf_model.get_cost_params: must call build_cost_params first");;
  (* 510 *) o ← read_self; _ ← getitem (cost_params o);
  (* 512 *) match name with
            | Some nm =>
              (* 513 *) n ← getN sel_cost (Some nm);
              if negb (n =? 0) then
                (* 514 *) idx ← rd_idx sel_cost; a ← getitem (idx_i1 idx !! nm);
                          idx ← rd_idx sel_cost; b ← getitem (idx_iN idx !! nm);
                          let rows := seqZ a (b - a) in
                (* 515 *) upd_params (fun p => x ← sp_take_rows (p_N p) rows;
                            mret (Params x (p_Cw p) (p_H p) (p_dd p) (p_rh p) (p_kk p) (p_mm p)));;
                (* 516 *) upd_params (fun p => x ← np_take (p_Cw p) rows;
                            mret (Params (p_N p) x (p_H p) (p_dd p) (p_rh p) (p_kk p) (p_mm p)));;
                (* 517 *) upd_params (fun p => x ← sp_take_rows (p_H p) rows;
                            mret (Params (p_N p) (p_Cw p) x (p_dd p) (p_rh p) (p_kk p) (p_mm p)));;
                (* 518 *) upd_params (fun p => x ← np_take (p_dd p) rows;
                            mret (Params (p_N p) (p_Cw p) (p_H p) x (p_rh p) (p_kk p) (p_mm p)));;
                (* 519 *) upd_params (fun p => x ← np_take (p_rh p) rows;
                            mret (Params (p_N p) (p_Cw p) (p_H p) (p_dd p) x (p_kk p) (p_mm p)));;
                (* 520 *) upd_params (fun p => x ← np_take (p_kk p) rows;
                            mret (Params (p_N p) (p_Cw p) (p_H p) (p_dd p) (p_rh p) x (p_mm p)));;
                (* 521 *) upd_params (fun p => x ← np_take (p_mm p) rows;
                            mret (Params (p_N p) (p_Cw p) (p_H p) (p_dd p) (p_rh p) (p_kk p) x))
              else mret tt
            | None => mret tt
            end;;
  (* 523 *) o ← read_self; getitem (cost_params o).

(** ** compute_cost (lines 346-417) *)

(** [0 & kk] (line 398): numpy has no bitwise-and on float64 arrays, and
    [kk] is one (it starts as [copy(zeros(nw))] in [build_cost_params]). *)
Definition bitwise_and_float (a : Z) (kk : vec) : M vec := raise TypeError.

(** [ones(n, 1)], [zeros(n, 1)] and [-ones(n, 1)] (lines 405-407): the second
    positional argument is [dtype], and [1] is not a data type. *)
Definition full_with_dtype (x : F) (n : Z) (dtype : Z) : M vec := raise TypeError.

(** [mm(iND)] (line 409): [mm] is an array, and an array is not callable. *)
Definition call_array (a : vec) (args : list Z) : M vec := raise TypeError.

Definition compute_cost (x : vec) (name : option string) : M vec :=
  (* 389 *) cp ← get_cost_params name;
  (* 394 *) let N := p_N cp in let Cw := p_Cw cp in let H := p_H cp in let dd := p_dd cp in
            let rh := p_rh cp in let kk := p_kk cp in let mm := p_mm cp in
  (* 395 *) let nw := m_nrows N in
  (* 396 *) Nx ← sp_matvec N x; r ← np_zip f_sub Nx rh;
  (* 397 *) iLT ← find <$> np_zip f_ltb r (map f_neg kk);
  (* 398 *) (* r == 0 & kk == 0 is the chain r == (0 & kk) == 0 *)
            t ← bitwise_and_float 0 kk;
            c1 ← np_zip f_eqb r t;
            c1_true ← array_truth c1;
            let iEQ := find (if (c1_true : bool) then map (fun y => f_eqb y f_zero) t else c1) in
  (* 399 *) iGT ← find <$> np_zip (fun a b => f_ltb b a) r kk;
  (* 400 *) let iND := iLT ++ iEQ ++ iGT in
  (* 401 *) let iL := find (map (fun d => f_eqb d f_one) dd) in
  (* 402 *) let iQ := find (map (fun d => f_eqb d f_two) dd) in
  (* 403 *) LL ← sp_diag (replicate (length iL) f_one) iL nw;
  (* 404 *) QQ ← sp_diag (replicate (length iQ) f_one) iQ nw;
  (* 405 *) s1 ← full_with_dtype f_one (len iLT) 1;
  (* 406 *) s2 ← full_with_dtype f_zero (len iEQ) 1;
  (* 407 *) s3 ← full_with_dtype f_one (len iGT) 1;
            K ← sp_diag (s1 ++ s2 ++ map f_neg s3) iND nw;
            kbar ← sp_matvec K kk;
  (* 408 *) rr ← np_zip f_add r kbar;
  (* 409 *) mi ← call_array mm iND; Mm ← sp_diag mi iND nw;
  (* 410 *) diagrr ← sp_diag rr (py_range (Z.of_nat nw)) nw;
  (* 413 *) Qd ← sp_mul QQ diagrr; S ← sp_add LL Qd; MS ← sp_mul Mm S; w ← sp_matvec MS rr;
  (* 415 *) wH ← sp_vecmat w H; q ← np_zip f_mul wH w; c ← np_zip f_mul Cw w;
            f ← np_zip f_add (map (fun y => f_div y f_two) q) c;
  (* 417 *) mret f.

(** ** get_idx (lines 526-564) and get_ppc (lines 567-570) *)

Definition get_idx : M (idx_t * idx_t * idx_t * idx_t) :=
  (* 559 *) vv ← rd_idx sel_var;
  (* 560 *) ll ← rd_idx sel_lin;
  (* 561 *) nn ← rd_idx sel_nln;
  (* 562 *) cc ← rd_idx sel_cost;
  (* 564 *) mret (vv, ll, nn, cc).

Definition get_ppc : M PPC := o ← read_self; mret (ppc o).

(** ** getv (lines 599-624) *)

Definition rd_var_dat : M var_data := o ← read_self; getitem (var_dat o).

(** The method computes [v0], [vl], [vu] and ends there: it has no
    [return] statement, so its value is Python's [None] (here [None]; a
    returned triple would be [Some (v0, vl, vu)]). *)
Definition getv (name : option string) : M (option (vec * vec * vec)) :=
  match name with
  | None =>
    (* 610 *) let st0 : vec * vec * vec := ([], [], []) in
    (* 611 *) ns ← rd_NS sel_var;
    _ ← for_each (py_range ns)
      (fun k (st : vec * vec * vec) =>
         let '(v0, vl, vu) := st in
         (* 612 *) ord ← rd_order sel_var; name ← getitem (ord !! k);
         (* 613 *) d ← rd_var_dat; a ← getitem (d_v0 d !! name);
         (* 614 *) d ← rd_var_dat; b ← getitem (d_vl d !! name);
         (* 615 *) d ← rd_var_dat; c ← getitem (d_vu d !! name);
         mret (v0 ++ a, vl ++ b, vu ++ c))
      st0;
    mret None
  | Some name =>
    (* 617 *) idx ← rd_idx sel_var;
    _ ← (if contains (idx_N idx) name then
           (* 618 *) d ← rd_var_dat; a ← getitem (d_v0 d !! name);
           (* 619 *) d ← rd_var_dat; b ← getitem (d_vl d !! name);
           (* 620 *) d ← rd_var_dat; c ← getitem (d_vu d !! name);
           mret (a, b, c)
         else
           (* 622 *) mret ([], [], []));
    mret None
  end.

(** ** linear_constraints (lines 627-667) *)

Definition rd_lin_dat : M lin_data := o ← read_self; getitem (lin_dat o).

Definition linear_constraints : M (matrix * vec * vec) :=
  (* 641 *) n ← rd_N sel_lin; m ← rd_N sel_var; A ← sparse_zeros n m;
  (* 642 *) n ← rd_N sel_lin; u ← scale f_inf <$> ones n;
  (* 643 *) let l := map f_neg u in
  (* 646 *) ns ← rd_NS sel_lin;
  for_each (py_range ns)
    (fun k (st : matrix * vec * vec) =>
       let '(A, l, u) := st in
       (* 647 *) ord ← rd_order sel_lin; name ← getitem (ord !! k);
       (* 648 *) idx ← rd_idx sel_lin; N ← getitem (idx_N idx !! name);
       if negb (N =? 0) then
         (* 650 *) d ← rd_lin_dat; Ak ← getitem (d_A d !! name);
         (* 651 *) idx ← rd_idx sel_lin; i1 ← getitem (idx_i1 idx !! name);
         (* 652 *) idx ← rd_idx sel_lin; iN ← getitem (idx_iN idx !! name);
         (* 653 *) d ← rd_lin_dat; vsl ← getitem (d_vs d !! name);
         (* 655 *) m ← rd_N sel_var; Ai ← sparse_zeros N m;
         (* 654, 656-661 *) Ai ← scatter_columns vsl Ak SAll Ai;
         (* 663 *) A ← sp_setslice A (SRange i1 iN) SAll Ai;
         (* 664 *) d ← rd_lin_dat; x ← getitem (d_l d !! name); l ← np_setslice l i1 iN x;
         (* 665 *) d ← rd_lin_dat; x ← getitem (d_u d !! name); u ← np_setslice u i1 iN x;
         mret (A, l, u)
       else mret (A, l, u))
    (A, l, u).

(** ** userdata (lines 670-686) *)

(** The body of the function [userdata] defined in the class.  [val] is
    [None] when the argument is omitted or is Python's [None]; the result is
    [None] for Python's [None]. *)
Definition userdata_method (name : string) (val : option V) : M (option V) :=
  match val with
  | Some v =>
    (* 681 *) o ← read_self; write_self (set_userdata (<[name := v]> (userdata o)) o);;
    mret None
  | None =>
    (* 683 *) o ← read_self;
    if contains (userdata o) name then
      (* 684 *) o ← read_self; Some <$> getitem (userdata o !! name)
    else
      (* 686 *) mret None
  end.

(** *** Attribute lookup on an instance

    [om.a] looks [a] up in the instance's own attributes before the
    functions of the class.  [__init__] binds [ppc], [var], [nln], [lin],
    [cost] and [userdata] on the instance; the class defines the methods. *)
Inductive owner : Type := InInstance | InClass | Nowhere.

Definition instance_attributes : list string :=
  ["ppc"; "var"; "nln"; "lin"; "cost"; "userdata"].

Definition class_attributes : list string :=
  ["add_constraints"; "add_costs"; "add_vars"; "build_cost_params"; "compute_cost";
   "display"; "get_cost_params"; "get_idx"; "get_ppc"; "getN"; "getv";
   "linear_constraints"; "userdata"].

Definition find_attribute (a : string) : owner :=
  if bool_decide (a ∈ instance_attributes) then InInstance
  else if bool_decide (a ∈ class_attributes) then InClass
  else Nowhere.

(** [om.a(...)]: when [a] resolves to a function of the class its body
    runs; the instance attributes hold dicts, and calling a dict is a
    [TypeError]. *)
Definition call_method {A : Type} (a : string) (body : M A) : M A :=
  match find_attribute a with
  | InClass => body
  | InInstance => raise TypeError
  | Nowhere => raise AttributeError
  end.

(** [om.userdata(name, val)] *)
Definition call_userdata (name : string) (val : option V) : M (option V) :=
  call_method "userdata" (userdata_method name val).

(** ** Registrations and the index ledger *)

(** The registration calls of the class. *)
Inductive registration : Type :=
| RegVars (name : string) (N : Z) (v0 vl vu : option vec)
| RegConstraints (name : string) (args : constraint_args)
| RegCosts (name : string) (cp : cost_struct) (varsets : option (list string)).

Definition register (r : registration) : M unit :=
  match r with
  | RegVars name N v0 vl vu => add_vars name N v0 vl vu
  | RegConstraints name args => add_constraints name args
  | RegCosts name cp varsets => add_costs name cp varsets
  end.

(** A run of registrations each of which completes: it returns without an
    exception and hands nothing to [logger.error]. *)
Inductive successful_run : list registration -> world -> world -> Prop :=
| run_done (w : world) : successful_run [] w w
| run_step (r : registration) (rs : list registration) (w w1 w2 : world) :
    register r w = (Ok tt, w1) ->
    errlog w1 = errlog w ->
    successful_run rs w1 w2 ->
    successful_run (r :: rs) w w2.

(** The [(i1, iN, N)] entry of the [k]-th block in insertion order, that
    is of the name [order[k]]; the registrations number blocks from 1. *)
Definition block_at (l : ledger) (k : Z) : option (Z * Z * Z) :=
  idx ← l_idx l;
  ord ← l_order l;
  name ← ord !! k;
  a ← idx_i1 idx !! name;
  b ← idx_iN idx !! name;
  n ← idx_N idx !! name;
  Some (a, b, n).

(** The [iN] of the block before the [k]-th one, 0 before the first. *)
Definition end_before (l : ledger) (k : Z) : option Z :=
  if k =? 1 then Some 0 else snd ∘ fst <$> block_at l (k - 1).

(** Index contiguity of one store: block [k] starts right after block
    [k - 1] ends, spans [N] indices, and the running total is the end of
    the last block. *)
Definition contiguous (l : ledger) : Prop :=
  exists ns tot : Z,
    l_NS l = Some ns /\ 0 <= ns /\
    (forall k, 1 <= k <= ns ->
       exists a b n p, block_at l k = Some (a, b, n) /\ end_before l k = Some p /\
                       a = p + 1 /\ b = a + n - 1) /\
    l_N l = Some tot /\ end_before l (ns + 1) = Some tot.

(** Registrations made one after the other by a caller that goes on after
    an exception: the outcomes, and the final world. *)
Fixpoint attempt_all (rs : list registration) (w : world) : list (result unit) * world :=
  match rs with
  | [] => ([], w)
  | r :: rest =>
      let (x, w1) := register r w in
      let (xs, w2) := attempt_all rest w1 in
      (x :: xs, w2)
  end.

(** The order of a ledger holds no block at position 0. *)
Definition order_from_one (l : ledger) : Prop :=
  exists ns ord, l_NS l = Some ns /\ 0 <= ns /\ l_order l = Some ord /\ ord !! 0 = None.

(** The ledger after one more block [name] of [N] indices. *)
Definition appended (idx : idx_t) (t ns : Z) (ord : gmap Z string) (name : string) (N : Z) : ledger :=
  Ledger (Some (Idx (<[name := t + 1]> (idx_i1 idx)) (<[name := t + N]> (idx_iN idx))
                    (<[name := N]> (idx_N idx))))
         (Some (t + N)) (Some (ns + 1)) (Some (<[ns + 1 := name]> ord)).

(** ** Two properties of computations, used in the proofs *)

(** A computation that leaves the world as it found it. *)
Definition stateless {A : Type} (m : M A) : Prop :=
  forall w r w', m w = (r, w') -> w' = w.

(** A computation that never returns normally. *)
Definition never_ok {A : Type} (m : M A) : Prop :=
  forall w, is_ok (fst (m w)) = false.

(** ** Stores with empty bookkeeping

    The methods read [idx], [N], [NS], [order] and [data] in each store.
    [blank] is the object in which every store holds these entries, all
    empty; [init] does not build it. *)

Definition blank_ledger : ledger := Ledger (Some (Idx ∅ ∅ ∅)) (Some 0) (Some 0) (Some ∅).

Definition blank (p : PPC) : opf_model :=
  OM p
     blank_ledger (Some (VarData ∅ ∅ ∅))
     blank_ledger
     blank_ledger (Some (LinData ∅ ∅ ∅ ∅))
     blank_ledger (Some (CostData ∅ ∅ ∅ ∅ ∅ ∅ ∅ ∅)) None
     ∅.

End Model.

(** ** An instance of the scalars, to run the methods on concrete data:
    the doubles that are integers, the two infinities and NaN.  A quotient
    that is not an integer is outside this instance and is mapped to
    [XNaN]. *)

Inductive xfloat : Type := XNaN | XNegInf | XFin (z : Z) | XPosInf.

Definition xneg (a : xfloat) : xfloat :=
  match a with
  | XNaN => XNaN
  | XNegInf => XPosInf
  | XFin z => XFin (- z)
  | XPosInf => XNegInf
  end.

Definition xadd (a b : xfloat) : xfloat :=
  match a, b with
  | XNaN, _ | _, XNaN => XNaN
  | XPosInf, XNegInf | XNegInf, XPosInf => XNaN
  | XPosInf, _ | _, XPosInf => XPosInf
  | XNegInf, _ | _, XNegInf => XNegInf
  | XFin x, XFin y => XFin (x + y)
  end.

Definition xsgn (a : xfloat) : Z :=
  match a with
  | XNaN => 0
  | XNegInf => -1
  | XFin z => Z.sgn z
  | XPosInf => 1
  end.

Definition xmul (a b : xfloat) : xfloat :=
  match a, b with
  | XNaN, _ | _, XNaN => XNaN
  | XFin x, XFin y => XFin (x * y)
  | _, _ =>
      match xsgn a * xsgn b with
      | Z0 => XNaN
      | Zpos _ => XPosInf
      | Zneg _ => XNegInf
      end
  end.

Definition xdiv (a b : xfloat) : xfloat :=
  match a, b with
  | XFin x, XFin y =>
      if y =? 0 then
        match x with Z0 => XNaN | Zpos _ => XPosInf | Zneg _ => XNegInf end
      else if x mod y =? 0 then XFin (x / y) else XNaN
  | XFin _, (XPosInf | XNegInf) => XFin 0
  | XPosInf, XFin y => if 0 <=? y then XPosInf else XNegInf
  | XNegInf, XFin y => if 0 <=? y then XNegInf else XPosInf
  | _, _ => XNaN
  end.

Definition xltb (a b : xfloat) : bool :=
  match a, b with
  | XNaN, _ | _, XNaN => false
  | XNegInf, XNegInf => false
  | XNegInf, _ => true
  | _, XNegInf => false
  | XPosInf, _ => false
  | _, XPosInf => true
  | XFin x, XFin y => x <? y
  end.

Definition xeqb (a b : xfloat) : bool :=
  match a, b with
  | XNegInf, XNegInf | XPosInf, XPosInf => true
  | XFin x, XFin y => x =? y
  | _, _ => false
  end.

#[export] Instance xfloat_ops : Float64 xfloat := {|
  f_zero := XFin 0; f_one := XFin 1; f_two := XFin 2; f_inf := XPosInf;
  f_neg := xneg; f_add := xadd; f_sub := fun a b => xadd a (xneg b);
  f_mul := xmul; f_div := xdiv; f_ltb := xltb; f_eqb := xeqb
|}.

(** The worlds of the examples: no problem data ([unit]), integer user
    data. *)
Definition xworld : Type := @world xfloat unit Z.

Definition fresh_world : xworld := World (init tt) [].
Definition blank_world : xworld := World (blank tt) [].

(** The final state of a run. *)
Definition exec {A : Type} (m : @M xfloat unit Z A) (w : xworld) : xworld := snd (m w).

(** ** Example data *)

(** Variable blocks [a] (2 variables) and [b] (3 variables), registered
    through [add_vars] on the blank object. *)
Definition w_a : xworld := exec (add_vars "a" 2 None None None) blank_world.
Definition w_ab : xworld := exec (add_vars "b" 3 None None None) w_a.

(** A nonlinear block [g] of 4 constraints. *)
Definition w_g : xworld := exec (add_constraints "g" (Nonlinear 4)) blank_world.

(** Three registrations in a row, and the world they end in. *)
Definition c1_regs : list (@registration xfloat) :=
  [RegVars "a" 2 None None None; RegConstraints "g" (Nonlinear 4); RegVars "b" 3 None None None].
Definition c1_final : xworld :=
  exec (add_vars "b" 3 None None None) (exec (add_constraints "g" (Nonlinear 4)) w_a).

(** The scenario [Pg] / [Pbal]: three variables bounded by 0 and 100, one
    constraint row of ones with l = u = 150 over [Pg]. *)
Definition w_pg : xworld :=
  exec (add_vars "Pg" 3 None (Some [XFin 0; XFin 0; XFin 0]) (Some [XFin 100; XFin 100; XFin 100]))
       blank_world.
Definition ones_1x3 : @matrix xfloat := Matrix 3 [[XFin 1; XFin 1; XFin 1]].
Definition reg_pbal : @M xfloat unit Z unit :=
  add_constraints "Pbal" (Linear ones_1x3 [XFin 150] [XFin 150] (Some ["Pg"])).

(** The same block written into the [lin] store by hand, the way lines
    110-123 would record it: index entry (1, 1, 1), [order[1] = "Pbal"]. *)
Definition pbal_idx : idx_t := Idx {["Pbal" := 1]} {["Pbal" := 1]} {["Pbal" := 1]}.
Definition pbal_data : @lin_data xfloat :=
  LinData {["Pbal" := ones_1x3]} {["Pbal" := [XFin 150]]} {["Pbal" := [XFin 150]]}
          {["Pbal" := VsList ["Pg"]]}.
Definition with_lin (l : ledger) (d : @lin_data xfloat) (w : xworld) : xworld :=
  World (set_lin_dat d (set_ledger sel_lin l (om w))) (errlog w).
Definition w_pbal : xworld :=
  with_lin (Ledger (Some pbal_idx) (Some 1) (Some 1) (Some {[1 := "Pbal"]})) pbal_data w_pg.
(** ... and with the block numbered from 0, the way [linear_constraints]
    reads the order. *)
Definition w_pbal0 : xworld :=
  with_lin (Ledger (Some pbal_idx) (Some 1) (Some 1) (Some {[0 := "Pbal"]})) pbal_data w_pg.

(** Cost examples: one variable [x]; a cost block with N = [[1]], Cw = [1]
    and no optional field; aggregate parameters with one row. *)
Definition w_x : xworld := exec (add_vars "x" 1 None None None) blank_world.
Definition cp_lin : @cost_struct xfloat :=
  CP (Matrix 1 [[XFin 1]]) [XFin 1] None None None None None.
Definition with_params (p : @params xfloat) (w : xworld) : xworld :=
  World (set_cost_params p (om w)) (errlog w).
(** kk = 0, dd = 1, H = 0 *)
Definition p_lin : @params xfloat :=
  Params (Matrix 1 [[XFin 1]]) [XFin 1] (Matrix 1 [[XFin 0]]) [XFin 1] [XFin 0] [XFin 0] [XFin 1].
(** rh = 0, kk = 5, dd = 2 *)
Definition p_dead : @params xfloat :=
  Params (Matrix 1 [[XFin 1]]) [XFin 1] (Matrix 1 [[XFin 0]]) [XFin 2] [XFin 0] [XFin 5] [XFin 1].
(** A single cost block [c] written into the [cost] store by hand, the way
    lines 212-238 would record it. *)
Definition w_cost1 : xworld :=
  World (set_cost_dat
           (CostData {["c" := Matrix 1 [[XFin 1]]]} {["c" := [XFin 1]]} {["c" := VsList ["x"]]}
                     ∅ ∅ ∅ ∅ ∅)
           (set_ledger sel_cost
              (Ledger (Some (Idx {["c" := 1]} {["c" := 1]} {["c" := 1]})) (Some 1) (Some 1)
                      (Some {[1 := "c"]}))
              (om w_x)))
        [].

(** ** Notions used to state further properties of the methods *)

Section Frames.
Context {F : Type} {FO : Float64 F} {PPC V : Type}.

(** [m] leaves the part [f] of the object as it found it, whatever its
    outcome. *)
Definition keeps {X A : Type} (f : @opf_model F PPC V -> X) (m : @M F PPC V A) : Prop :=
  forall w r w', m w = (r, w') -> f (om w') = f (om w).

(** Lines 255-262: a vector that is [None] or empty is replaced. *)
Definition needs_default (v : option (list F)) : bool :=
  match v with None => true | Some a => len a =? 0 end.

(** ... and the vector that is stored, given the default. *)
Definition chosen (v : option (list F)) (dflt : list F) : list F :=
  match v with
  | None => dflt
  | Some a => if len a =? 0 then dflt else a
  end.

(** The parts of the object that the registrations never write: their
    reachable stores go to the [var] and [nln] ledgers and to the [var]
    data. *)
Definition untouched_by_registration {X : Type} (f : @opf_model F PPC V -> X) : Prop :=
  (forall l o, f (set_ledger sel_var l o) = f o) /\
  (forall l o, f (set_ledger sel_nln l o) = f o) /\
  (forall d o, f (set_var_dat d o) = f o).

(** Everything but the [var] and [nln] stores. *)
Definition rest_of_object (o : @opf_model F PPC V) :=
  (ppc o, userdata o, lin o, lin_dat o, cost o, cost_dat o, cost_params o).

(** The aggregate that [build_cost_params] starts from (lines 301-307). *)
Definition default_params (nw nx : nat) : @params F :=
  Params (Matrix nx (replicate nw (replicate nx f_zero)))
         (replicate nw f_zero)
         (Matrix nw (replicate nw (replicate nw f_zero)))
         (replicate nw f_one) (replicate nw f_zero) (replicate nw f_zero) (replicate nw f_one).

(** The message of line 508. *)
Definition not_built_message : string :=
  "opf_model.get_cost_params: must call build_cost_params first".

(** Everything but [self.cost["params"]]. *)
Definition all_but_cost_params (o : @opf_model F PPC V) :=
  (ppc o, var o, var_dat o, nln o, lin o, lin_dat o, cost o, cost_dat o, userdata o).

(** The names of a ledger: the order mapping numbers the blocks 1..NS, each
    name once, and the three index maps hold exactly the ordered names. *)
Definition well_named (l : ledger) : Prop :=
  exists idx ns ord,
    l_idx l = Some idx /\ l_NS l = Some ns /\ l_order l = Some ord /\ 0 <= ns /\
    (forall k, is_Some (ord !! k) <-> 1 <= k <= ns) /\
    (forall k k' name, ord !! k = Some name -> ord !! k' = Some name -> k = k') /\
    (forall name, is_Some (idx_N idx !! name) <-> exists k, ord !! k = Some name) /\
    (forall name, is_Some (idx_i1 idx !! name) <-> is_Some (idx_N idx !! name)) /\
    (forall name, is_Some (idx_iN idx !! name) <-> is_Some (idx_N idx !! name)).

(** *** The recording steps of the linear and cost registrations *)

(** Lines 110-123 of [add_constraints], the statements that enter a linear
    block in the ledger once the checks are done, as a function of the
    local variables they read. *)
Definition record_linear (name : string) (AorN : @matrix F) (l u : list F) (varsets : varsets_t)
    (N : Z) : @M F PPC V unit :=
  (* 110 *) s ← self_getitem "lin"; t ← getitem (l_N s); set_i1 sel_lin name (t + 1);;
  (* 111 *) s ← self_getitem "lin"; t ← getitem (l_N s); set_iN sel_lin name (t + N);;
  (* 112 *) set_Nof sel_lin name N;;
  (* 113 *) wr_lin_dat (fun d => LinData (<[name := AorN]> (d_A d)) (d_l d) (d_u d) (d_vs d));;
  (* 114 *) wr_lin_dat (fun d => LinData (d_A d) (<[name := l]> (d_l d)) (d_u d) (d_vs d));;
  (* 115 *) wr_lin_dat (fun d => LinData (d_A d) (d_l d) (<[name := u]> (d_u d)) (d_vs d));;
  (* 116 *) wr_lin_dat (fun d => LinData (d_A d) (d_l d) (d_u d) (<[name := varsets]> (d_vs d)));;
  (* 119 *) idx ← rd_idx sel_lin; e ← getitem (idx_iN idx !! name); wr_N sel_lin e;;
  (* 120 *) ns ← rd_NS sel_lin; wr_NS sel_lin (ns + 1);;
  (* 123 *) append_order sel_lin name.

(** Lines 212-238 of [add_costs], likewise; [nw] is the row count read at
    line 180. *)
Definition record_costs (name : string) (cp : @cost_struct F) (varsets : varsets_t) (nw : Z)
    : @M F PPC V unit :=
  (* 212 *) t ← rd_N sel_cost; set_i1 sel_cost name (t + 1);;
  (* 213 *) t ← rd_N sel_cost; set_iN sel_cost name (t + nw);;
  (* 214 *) set_Nof sel_cost name nw;;
  (* 215 *) wr_cost_dat (fun d => CostData (<[name := cp_N cp]> (c_N d)) (c_Cw d) (c_vs d) (c_H d)
                                          (c_dd d) (c_rh d) (c_kk d) (c_mm d));;
  (* 216 *) wr_cost_dat (fun d => CostData (c_N d) (<[name := cp_Cw cp]> (c_Cw d)) (c_vs d) (c_H d)
                                          (c_dd d) (c_rh d) (c_kk d) (c_mm d));;
  (* 217 *) wr_cost_dat (fun d => CostData (c_N d) (c_Cw d) (<[name := varsets]> (c_vs d)) (c_H d)
                                          (c_dd d) (c_rh d) (c_kk d) (c_mm d));;
  (* 218 *) match cp_H cp with
            | Some H => wr_cost_dat (fun d => CostData (c_N d) (c_Cw d) (c_vs d) (<[name := H]> (c_H d))
                                                      (c_dd d) (c_rh d) (c_kk d) (c_mm d))
            | None => mret tt
            end;;
  (* 221 *) match cp_dd cp with
            | Some x => wr_cost_dat (fun d => CostData (c_N d) (c_Cw d) (c_vs d) (c_H d)
                                                      (<["name" := x]> (c_dd d)) (c_rh d) (c_kk d) (c_mm d))
            | None => mret tt
            end;;
  (* 224 *) match cp_rh cp with
            | Some x => wr_cost_dat (fun d => CostData (c_N d) (c_Cw d) (c_vs d) (c_H d)
                                                      (c_dd d) (<["name" := x]> (c_rh d)) (c_kk d) (c_mm d))
            | None => mret tt
            end;;
  (* 227 *) match cp_kk cp with
            | Some x => wr_cost_dat (fun d => CostData (c_N d) (c_Cw d) (c_vs d) (c_H d)
                                                      (c_dd d) (c_rh d) (<["name" := x]> (c_kk d)) (c_mm d))
            | None => mret tt
            end;;
  (* 230 *) match cp_mm cp with
            | Some x => wr_cost_dat (fun d => CostData (c_N d) (c_Cw d) (c_vs d) (c_H d)
                                                      (c_dd d) (c_rh d) (c_kk d) (<["name" := x]> (c_mm d)))
            | None => mret tt
            end;;
  (* 234 *) idx ← rd_idx sel_cost; e ← getitem (idx_iN idx !! "name"); wr_N sel_cost e;;
  (* 235 *) ns ← rd_NS sel_cost; wr_NS sel_cost (ns + 1);;
  (* 238 *) append_order sel_cost name.

(** The registrations of a variable block and of a nonlinear block. *)
Definition var_or_nonlinear (r : @registration F) : bool :=
  match r with
  | RegVars _ _ _ _ _ => true
  | RegConstraints _ (Nonlinear _) => true
  | RegConstraints _ (Linear _ _ _ _) => false
  | RegCosts _ _ _ => false
  end.

End Frames.

(** Further example data *)

(** A variable store that holds its ledger but no ["data"] entry. *)
Definition w_nodata : xworld :=
  World (OM tt blank_ledger None blank_ledger blank_ledger None blank_ledger None None ∅) [].

(** The store of [w_cost1] with the one-row parameters [p_lin] in place. *)
Definition w_cost1_built : xworld := with_params p_lin w_cost1.

(** Parameters with no row left. *)
Definition p_no_rows : @params xfloat :=
  Params (Matrix 1 []) [] (Matrix 1 []) [] [] [] [].

(** A cost block of two rows, and the cost store after lines 212-238 have
    recorded it under the name [name]. *)
Definition cp_two : @cost_struct xfloat :=
  CP (Matrix 1 [[XFin 1]; [XFin 1]]) [XFin 1; XFin 1] None None None None None.
Definition w_cost_name : xworld := exec (record_costs "name" cp_two (VsList ["x"]) 2) w_x.

(** * Properties *)

Section Facts.
Context {F : Type} {FO : Float64 F} {PPC V : Type}.
Implicit Types (w : @world F PPC V).

Lemma bind_run {A B : Type} (m : @M F PPC V A) (f : A -> M B) w :
  (m ≫= f) w = match m w with
               | (Ok a, w') => f a w'
               | (Raise e, w') => (Raise e, w')
               end.
Proof. reflexivity. Qed.

Lemma bind_ok_inv {A B : Type} (m : @M F PPC V A) (f : A -> M B) w b w' :
  (m ≫= f) w = (Ok b, w') -> exists a w1, m w = (Ok a, w1) /\ f a w1 = (Ok b, w').
Proof.
  rewrite bind_run. destruct (m w) as [[a|e] w1]; [eauto | discriminate].
Qed.

Lemma getitem_ok_inv {A : Type} (o : option A) w a w' :
  getitem o w = (Ok a, w') -> o = Some a /\ w' = w.
Proof. destruct o; cbn; intros H; inversion H; auto. Qed.

Lemma rd_idx_ok_inv s w idx w' :
  rd_idx s w = (Ok idx, w') -> l_idx (getattr (om w) s) = Some idx /\ w' = w.
Proof.
  unfold rd_idx. intros H. apply bind_ok_inv in H as (o & w1 & H1 & H).
  inversion H1; subst. by apply getitem_ok_inv in H.
Qed.

Lemma rd_N_ok_inv s w t w' :
  rd_N s w = (Ok t, w') -> l_N (getattr (om w) s) = Some t /\ w' = w.
Proof.
  unfold rd_N. intros H. apply bind_ok_inv in H as (o & w1 & H1 & H).
  inversion H1; subst. by apply getitem_ok_inv in H.
Qed.

Lemma rd_NS_ok_inv s w t w' :
  rd_NS s w = (Ok t, w') -> l_NS (getattr (om w) s) = Some t /\ w' = w.
Proof.
  unfold rd_NS. intros H. apply bind_ok_inv in H as (o & w1 & H1 & H).
  inversion H1; subst. by apply getitem_ok_inv in H.
Qed.

Lemma rd_order_ok_inv s w t w' :
  rd_order s w = (Ok t, w') -> l_order (getattr (om w) s) = Some t /\ w' = w.
Proof.
  unfold rd_order. intros H. apply bind_ok_inv in H as (o & w1 & H1 & H).
  inversion H1; subst. by apply getitem_ok_inv in H.
Qed.

Lemma wr_idx_ok_inv s upd w u w' :
  wr_idx s upd w = (Ok u, w') ->
  exists idx, l_idx (getattr (om w) s) = Some idx /\
    w' = World (set_ledger s (Ledger (Some (upd idx)) (l_N (getattr (om w) s))
                                (l_NS (getattr (om w) s)) (l_order (getattr (om w) s))) (om w))
               (errlog w).
Proof.
  unfold wr_idx. intros H. apply bind_ok_inv in H as (o & w1 & H1 & H).
  inversion H1; subst. apply bind_ok_inv in H as (idx & w2 & H2 & H).
  apply getitem_ok_inv in H2 as [H2 ->]. exists idx. split; [done|].
  unfold write_self in H. by inversion H.
Qed.

Lemma append_order_ok_inv s name w u w' :
  append_order s name w = (Ok u, w') ->
  exists ord ns, l_order (getattr (om w) s) = Some ord /\ l_NS (getattr (om w) s) = Some ns /\
    w' = World (set_ledger s (Ledger (l_idx (getattr (om w) s)) (l_N (getattr (om w) s))
                                (l_NS (getattr (om w) s)) (Some (<[ns := name]> ord))) (om w))
               (errlog w).
Proof.
  unfold append_order. intros H. apply bind_ok_inv in H as (o & w1 & H1 & H).
  inversion H1; subst. apply bind_ok_inv in H as (ord & w2 & H2 & H).
  apply getitem_ok_inv in H2 as [H2 ->].
  apply bind_ok_inv in H as (ns & w3 & H3 & H).
  apply getitem_ok_inv in H3 as [H3 ->].
  exists ord, ns. split; [done|]. split; [done|].
  unfold write_self in H. by inversion H.
Qed.

Lemma wr_var_dat_ok_inv upd w u w' :
  wr_var_dat upd w = (Ok u, w') ->
  exists d, var_dat (om w) = Some d /\ w' = World (set_var_dat (upd d) (om w)) (errlog w).
Proof.
  unfold wr_var_dat. intros H. apply bind_ok_inv in H as (o & w1 & H1 & H).
  inversion H1; subst. apply bind_ok_inv in H as (d & w2 & H2 & H).
  apply getitem_ok_inv in H2 as [H2 ->]. exists d. split; [done|].
  unfold write_self in H. by inversion H.
Qed.

Lemma when_log_inv (b : bool) msg w u w' :
  when b (logger_error msg) w = (Ok u, w') ->
  om w' = om w /\ errlog w' = errlog w ++ (if b then [msg] else []).
Proof.
  destruct b; cbn; intros H; inversion H; subst; cbn; [done|]. by rewrite app_nil_r.
Qed.

Lemma stateless_np_full x n : @stateless F PPC V _ (np_full x n).
Proof. intros w r w'. unfold np_full. destruct (n <? 0); cbn; intros H; by inversion H. Qed.

Lemma stateless_fmap {A B : Type} (g : A -> B) (m : @M F PPC V A) : stateless m -> stateless (g <$> m).
Proof.
  intros Hm w r w'. unfold fmap, M_fmap.
  destruct (m w) as [[a|e] w1] eqn:E; intros H; inversion H; subst; eauto.
Qed.

Lemma stateless_default_vec v (d : @M F PPC V (list F)) : stateless d -> stateless (default_vec v d).
Proof.
  intros Hd w r w'. unfold default_vec. destruct v as [a|]; [|apply Hd].
  destruct (len a =? 0); [apply Hd|]. cbn. intros H; by inversion H.
Qed.

(** What a call of [add_vars] that returns has done: one more block in
    the [var] ledger, whether or not the name was there already. *)
Lemma add_vars_returns name N v0 vl vu w w' :
  add_vars name N v0 vl vu w = (Ok tt, w') ->
  exists idx t ns ord,
    l_idx (var (om w)) = Some idx /\ l_N (var (om w)) = Some t /\
    l_NS (var (om w)) = Some ns /\ l_order (var (om w)) = Some ord /\
    var (om w') = appended idx t ns ord name N /\
    nln (om w') = nln (om w) /\ lin (om w') = lin (om w) /\ cost (om w') = cost (om w) /\
    errlog w' = errlog w ++
      (if contains (idx_N idx) name
       then ["opf_model.add_vars: variable set named " +:+ name +:+ " already exists"]
       else []).
Proof.
  unfold add_vars. intros H.
  apply bind_ok_inv in H as (idx & w1 & H1 & H). apply rd_idx_ok_inv in H1 as [Hidx ->].
  apply bind_ok_inv in H as (? & w1 & H1 & H). apply when_log_inv in H1 as [Ho Hl].
  apply bind_ok_inv in H as (v0' & w2 & H2 & H).
  apply stateless_default_vec in H2 as ->; [|apply stateless_np_full].
  apply bind_ok_inv in H as (vl' & w2 & H2 & H).
  apply stateless_default_vec in H2 as ->; [|apply stateless_fmap, stateless_np_full].
  apply bind_ok_inv in H as (vu' & w2 & H2 & H).
  apply stateless_default_vec in H2 as ->; [|apply stateless_fmap, stateless_np_full].
  apply bind_ok_inv in H as (t & w2 & H2 & H). apply rd_N_ok_inv in H2 as [Ht ->].
  apply bind_ok_inv in H as (? & w2 & H2 & H). apply wr_idx_ok_inv in H2 as (idx1 & Hi1 & ->).
  apply bind_ok_inv in H as (t' & w2 & H2 & H). apply rd_N_ok_inv in H2 as [Ht' ->].
  apply bind_ok_inv in H as (? & w2 & H2 & H). apply wr_idx_ok_inv in H2 as (idx2 & Hi2 & ->).
  apply bind_ok_inv in H as (? & w2 & H2 & H). apply wr_idx_ok_inv in H2 as (idx3 & Hi3 & ->).
  apply bind_ok_inv in H as (? & w2 & H2 & H). apply wr_var_dat_ok_inv in H2 as (d1 & Hd1 & ->).
  apply bind_ok_inv in H as (? & w2 & H2 & H). apply wr_var_dat_ok_inv in H2 as (d2 & Hd2 & ->).
  apply bind_ok_inv in H as (? & w2 & H2 & H). apply wr_var_dat_ok_inv in H2 as (d3 & Hd3 & ->).
  apply bind_ok_inv in H as (idx4 & w2 & H2 & H). apply rd_idx_ok_inv in H2 as [Hi4 ->].
  apply bind_ok_inv in H as (e & w2 & H2 & H). apply getitem_ok_inv in H2 as [He ->].
  apply bind_ok_inv in H as (? & w2 & H2 & H). cbn in H2. inversion H2; subst w2; clear H2.
  apply bind_ok_inv in H as (ns & w2 & H2 & H). apply rd_NS_ok_inv in H2 as [Hns ->].
  apply bind_ok_inv in H as (? & w2 & H2 & H). cbn in H2. inversion H2; subst w2; clear H2.
  apply append_order_ok_inv in H as (ord & ns' & Hord & Hns' & ->).
  cbn in *. rewrite Ho in *. clear Ho. simplify_eq. cbn in *.
  rewrite lookup_insert_eq in He. simplify_eq.
  exists idx, t, ns, ord. unfold appended. repeat split; done.
Qed.

(** The same for the nonlinear branch of [add_constraints]. *)
Lemma add_nonlinear_returns name N w w' :
  add_constraints name (Nonlinear N) w = (Ok tt, w') ->
  exists idx t ns ord,
    l_idx (nln (om w)) = Some idx /\ l_N (nln (om w)) = Some t /\
    l_NS (nln (om w)) = Some ns /\ l_order (nln (om w)) = Some ord /\
    nln (om w') = appended idx t ns ord name N /\
    var (om w') = var (om w) /\ lin (om w') = lin (om w) /\ cost (om w') = cost (om w) /\
    errlog w' = errlog w ++
      (if contains (idx_N idx) name
       then ["opf_model.add_constraints: nonlinear constraint set named '" +:+ name
             +:+ "' already exists"]
       else []).
Proof.
  unfold add_constraints. intros H.
  apply bind_ok_inv in H as (idx & w1 & H1 & H). apply rd_idx_ok_inv in H1 as [Hidx ->].
  apply bind_ok_inv in H as (? & w1 & H1 & H). apply when_log_inv in H1 as [Ho Hl].
  apply bind_ok_inv in H as (t & w2 & H2 & H). apply rd_N_ok_inv in H2 as [Ht ->].
  apply bind_ok_inv in H as (? & w2 & H2 & H). apply wr_idx_ok_inv in H2 as (idx1 & Hi1 & ->).
  apply bind_ok_inv in H as (t' & w2 & H2 & H). apply rd_N_ok_inv in H2 as [Ht' ->].
  apply bind_ok_inv in H as (? & w2 & H2 & H). apply wr_idx_ok_inv in H2 as (idx2 & Hi2 & ->).
  apply bind_ok_inv in H as (? & w2 & H2 & H). apply wr_idx_ok_inv in H2 as (idx3 & Hi3 & ->).
  apply bind_ok_inv in H as (idx4 & w2 & H2 & H). apply rd_idx_ok_inv in H2 as [Hi4 ->].
  apply bind_ok_inv in H as (e & w2 & H2 & H). apply getitem_ok_inv in H2 as [He ->].
  apply bind_ok_inv in H as (? & w2 & H2 & H). cbn in H2. inversion H2; subst w2; clear H2.
  apply bind_ok_inv in H as (ns & w2 & H2 & H). apply rd_NS_ok_inv in H2 as [Hns ->].
  apply bind_ok_inv in H as (? & w2 & H2 & H). cbn in H2. inversion H2; subst w2; clear H2.
  apply append_order_ok_inv in H as (ord & ns' & Hord & Hns' & ->).
  cbn in *. rewrite Ho in *. clear Ho. simplify_eq. cbn in *.
  rewrite lookup_insert_eq in He. simplify_eq.
  exists idx, t, ns, ord. unfold appended. repeat split; done.
Qed.

(** A call that logged nothing was made under a name not yet in the
    ledger. *)
Lemma silent_means_fresh {A : Type} (d : gmap string A) name (log log' : list string) msg :
  log' = log ++ (if contains d name then [msg] else []) -> log' = log -> d !! name = None.
Proof.
  intros -> Hlog. unfold contains in Hlog. case_bool_decide as Hc.
  - apply (f_equal length) in Hlog. rewrite length_app in Hlog. cbn in Hlog. lia.
  - by rewrite <- eq_None_not_Some in Hc.
Qed.

(** With the bookkeeping in place and a count that is not negative,
    [add_vars] returns, under any name. *)
Lemma add_vars_runs name N v0 vl vu w idx t ns ord d :
  l_idx (var (om w)) = Some idx -> l_N (var (om w)) = Some t ->
  l_NS (var (om w)) = Some ns -> l_order (var (om w)) = Some ord ->
  var_dat (om w) = Some d -> 0 <= N ->
  fst (add_vars name N v0 vl vu w) = Ok tt.
Proof.
  destruct w as [[p [vi vt vn vo] vd nl ll ld cl cd cp ud] log]. cbn.
  intros -> -> -> -> -> HN. unfold add_vars.
  assert (HN' : (N <? 0) = false) by lia.
  unfold rd_idx, rd_N, rd_NS, when, default_vec, zeros, ones, np_full.
  rewrite HN'. unfold fmap, M_fmap, mret, M_ret.
  destruct v0 as [a0|]; [destruct (len a0 =? 0)|];
    (destruct vl as [a1|]; [destruct (len a1 =? 0)|]);
    (destruct vu as [a2|]; [destruct (len a2 =? 0)|]);
    unfold set_i1, set_iN, set_Nof, wr_idx, wr_N, wr_NS, wr_var_dat, append_order;
    repeat (rewrite bind_run; cbn);
    destruct (contains (idx_N idx) name); cbn;
    repeat (rewrite bind_run; cbn); rewrite lookup_insert_eq; reflexivity.
Qed.

(** So a second registration under a name already in the [var] ledger is
    carried out like a first one, after the message is logged. *)
Lemma add_vars_accepts_duplicate name N v0 vl vu w idx t ns ord d :
  l_idx (var (om w)) = Some idx -> l_N (var (om w)) = Some t ->
  l_NS (var (om w)) = Some ns -> l_order (var (om w)) = Some ord ->
  var_dat (om w) = Some d -> 0 <= N ->
  is_Some (idx_N idx !! name) ->
  exists w', add_vars name N v0 vl vu w = (Ok tt, w') /\
    var (om w') = appended idx t ns ord name N /\
    errlog w' = errlog w ++
      ["opf_model.add_vars: variable set named " +:+ name +:+ " already exists"].
Proof.
  intros Hidx Ht Hns Hord Hd HN Hreg.
  pose proof (add_vars_runs name N v0 vl vu w idx t ns ord d Hidx Ht Hns Hord Hd HN) as Hrun.
  destruct (add_vars name N v0 vl vu w) as [r w'] eqn:E. cbn in Hrun. subst r.
  exists w'. split; [done|].
  apply add_vars_returns in E
    as (idx' & t' & ns' & ord' & Hidx' & Ht' & Hns' & Hord' & Hvar & _ & _ & _ & Hmsg).
  simplify_eq. split; [done|].
  rewrite Hmsg. unfold contains. by rewrite bool_decide_eq_true_2.
Qed.

Lemma block_at_appended_old l idx t ns ord name N k x :
  l_idx l = Some idx -> l_order l = Some ord -> idx_N idx !! name = None ->
  k <> ns + 1 -> block_at l k = Some x ->
  block_at (appended idx t ns ord name N) k = Some x.
Proof.
  intros Hidx Hord Hfresh Hk. unfold block_at, appended. rewrite Hidx, Hord. cbn.
  rewrite lookup_insert_ne by done.
  destruct (ord !! k) as [nm|]; cbn; [|done].
  destruct (decide (nm = name)) as [->|Hne].
  - rewrite Hfresh. destruct (idx_i1 idx !! name), (idx_iN idx !! name); cbn; done.
  - by rewrite !lookup_insert_ne.
Qed.

Lemma block_at_appended_new idx t ns ord name N :
  block_at (appended idx t ns ord name N) (ns + 1) = Some (t + 1, t + N, N).
Proof.
  unfold block_at, appended. cbn. rewrite lookup_insert_eq. cbn.
  repeat (rewrite lookup_insert_eq; cbn). done.
Qed.

Lemma end_before_appended_old l idx t ns ord name N k p :
  l_idx l = Some idx -> l_order l = Some ord -> idx_N idx !! name = None ->
  k <> ns + 2 -> end_before l k = Some p ->
  end_before (appended idx t ns ord name N) k = Some p.
Proof.
  intros Hidx Hord Hfresh Hk H. unfold end_before in *. destruct (k =? 1); [done|].
  destruct (block_at l (k - 1)) as [x|] eqn:E; [|done].
  erewrite block_at_appended_old; eauto; lia.
Qed.

Lemma contiguous_appended l idx t ns ord name N :
  l_idx l = Some idx -> idx_N idx !! name = None -> l_N l = Some t ->
  l_NS l = Some ns -> l_order l = Some ord ->
  contiguous l -> contiguous (appended idx t ns ord name N).
Proof.
  intros Hidx Hfresh Ht Hns Hord (ns' & tot & Hns' & Hpos & Hblocks & Htot & Hend).
  rewrite Hns in Hns'. rewrite Ht in Htot. simplify_eq.
  exists (ns' + 1), (tot + N). split; [done|]. split; [lia|]. split; [|split; [done|]].
  - intros k Hk. destruct (decide (k = ns' + 1)) as [->|Hne].
    + exists (tot + 1), (tot + N), N, tot. rewrite block_at_appended_new.
      rewrite (end_before_appended_old l idx tot ns' ord name N (ns' + 1) tot) by (done || lia).
      repeat split; lia.
    + destruct (Hblocks k) as (a & b & n & p & Hb & He & Ha & Hbn); [lia|].
      exists a, b, n, p.
      rewrite (block_at_appended_old l idx tot ns' ord name N k (a, b, n)) by done.
      rewrite (end_before_appended_old l idx tot ns' ord name N k p) by (done || lia).
      done.
  - unfold end_before. destruct (ns' + 1 + 1 =? 1) eqn:E; [lia|].
    replace (ns' + 1 + 1 - 1) with (ns' + 1) by lia.
    by rewrite block_at_appended_new.
Qed.

Lemma contiguous_blank : contiguous blank_ledger.
Proof.
  exists 0, 0. cbn. repeat split; try done. intros k Hk. lia.
Qed.

Lemma never_ok_raise {A : Type} e : @never_ok F PPC V A (raise e).
Proof. done. Qed.

Lemma never_ok_bind_l {A B : Type} (m : @M F PPC V A) (f : A -> M B) : never_ok m -> never_ok (m ≫= f).
Proof.
  intros Hm w. rewrite bind_run. specialize (Hm w). by destruct (m w) as [[a|e] w1].
Qed.

Lemma never_ok_bind_r {A B : Type} (m : @M F PPC V A) (f : A -> M B) :
  (forall a, never_ok (f a)) -> never_ok (m ≫= f).
Proof.
  intros Hf w. rewrite bind_run. destruct (m w) as [[a|e] w1]; [apply Hf | done].
Qed.

Lemma never_ok_in_dict_and {A : Type} (field : option A) :
  @never_ok F PPC V _ (in_dict_and field).
Proof. apply never_ok_bind_r. intros _. apply never_ok_raise. Qed.

Lemma never_ok_self_getitem key : @never_ok F PPC V _ (self_getitem key).
Proof. done. Qed.

Ltac never_ok_tac :=
  repeat first
    [ apply never_ok_bind_l; first [apply never_ok_self_getitem | apply never_ok_in_dict_and | apply never_ok_raise]
    | apply never_ok_bind_r; intros ].

Lemma add_linear_never_ok name A l u varsets :
  @never_ok F PPC V _ (add_constraints name (Linear A l u varsets)).
Proof. unfold add_constraints. never_ok_tac. Qed.

Lemma add_costs_never_ok name cp varsets : @never_ok F PPC V _ (add_costs name cp varsets).
Proof. unfold add_costs. never_ok_tac. Qed.

Lemma never_ok_not_ok {A : Type} (m : @M F PPC V A) w a w' : never_ok m -> m w <> (Ok a, w').
Proof. intros Hm H. specialize (Hm w). by rewrite H in Hm. Qed.

Lemma register_preserves_contiguity r w w' :
  register r w = (Ok tt, w') -> errlog w' = errlog w ->
  (forall s, contiguous (getattr (om w) s)) ->
  forall s, contiguous (getattr (om w') s).
Proof.
  intros Hrun Hlog Hinv.
  destruct r as [name N v0 vl vu | name [N | A l u vs] | name cp vs]; cbn in Hrun.
  - apply add_vars_returns in Hrun
      as (idx & t & ns & ord & Hidx & Ht & Hns & Hord & Hvar & Hn & Hl & Hc & Hmsg).
    pose proof (silent_means_fresh _ _ _ _ _ Hmsg Hlog) as Hfresh.
    intros []; cbn; rewrite ?Hn, ?Hl, ?Hc;
      try apply (Hinv sel_lin); try apply (Hinv sel_nln); try apply (Hinv sel_cost).
    rewrite Hvar. apply (contiguous_appended (var (om w))); try done. apply (Hinv sel_var).
  - apply add_nonlinear_returns in Hrun
      as (idx & t & ns & ord & Hidx & Ht & Hns & Hord & Hnln & Hv & Hl & Hc & Hmsg).
    pose proof (silent_means_fresh _ _ _ _ _ Hmsg Hlog) as Hfresh.
    intros []; cbn; rewrite ?Hv, ?Hl, ?Hc;
      try apply (Hinv sel_lin); try apply (Hinv sel_var); try apply (Hinv sel_cost).
    rewrite Hnln. apply (contiguous_appended (nln (om w))); try done. apply (Hinv sel_nln).
  - by apply never_ok_not_ok in Hrun; [|apply add_linear_never_ok].
  - by apply never_ok_not_ok in Hrun; [|apply add_costs_never_ok].
Qed.

(** Contiguity is kept by any run of registrations that all complete. *)
Lemma successful_run_contiguous (rs : list registration) w w' :
  successful_run rs w w' ->
  (forall s, contiguous (getattr (om w) s)) ->
  forall s, contiguous (getattr (om w') s).
Proof.
  induction 1 as [w | r rs w w1 w2 Hr Hlog Hrun IH]; [done|].
  intros Hinv. apply IH. by apply (register_preserves_contiguity r w w1).
Qed.

(** No run of completed registrations adds a linear or a cost block. *)
Lemma successful_run_frames_lin_cost rs w w' :
  successful_run rs w w' -> lin (om w') = lin (om w) /\ cost (om w') = cost (om w).
Proof.
  induction 1 as [w | r rs w w1 w2 Hr Hlog Hrun [IHl IHc]]; [done|].
  rewrite IHl, IHc. clear IHl IHc Hrun.
  destruct r as [name N v0 vl vu | name [N | A l u vs] | name cp vs]; cbn in Hr.
  - by apply add_vars_returns in Hr as (_ & _ & _ & _ & _ & _ & _ & _ & _ & _ & Hl & Hc & _).
  - by apply add_nonlinear_returns in Hr as (_ & _ & _ & _ & _ & _ & _ & _ & _ & _ & Hl & Hc & _).
  - by apply never_ok_not_ok in Hr; [|apply add_linear_never_ok].
  - by apply never_ok_not_ok in Hr; [|apply add_costs_never_ok].
Qed.

(** *** What a registration records *)

(** [add_constraints] on a matrix and [add_costs] end in the recording
    steps. *)
Lemma add_constraints_linear_records name (AorN : @matrix F) l u varsets :
  (add_constraints name (Linear AorN l u varsets) : @M F PPC V unit) =
    (idx ← rd_idx sel_lin;
     when (contains (idx_N idx) name)
       (logger_error ("opf_model.add_constraints: linear constraint set named "
                      +:+ name +:+ " already exists"));;
     let N := Z.of_nat (m_nrows AorN) in
     let M := Z.of_nat (m_ncols AorN) in
     l ← (if len l =? 0 then scale (f_neg f_inf) <$> ones N else mret l);
     u ← (if len u =? 0 then scale f_inf <$> ones N else mret u);
     varsets ← default_varsets varsets;
     when (negb (len l =? N) || negb (len u =? N))
       (logger_error "opf_model.add_constraints: sizes of A, l and u must match");;
     nv ← count_vars varsets;
     when (negb (M =? nv))
       (logger_error ("opf_model.add_constraints: number of columns of A does not match"
                      +:+ newline +:+ "number of variables, A is " +:+ pretty N +:+ " x "
                      +:+ pretty M +:+ ", nv = " +:+ pretty nv +:+ newline));;
     record_linear name AorN l u varsets N).
Proof. reflexivity. Qed.

Lemma add_costs_records name (cp : @cost_struct F) varsets :
  (add_costs name cp varsets : @M F PPC V unit) =
    (idx ← rd_idx sel_cost;
     when (contains (idx_N idx) name)
       (logger_error ("opf_model.add_costs: cost set named " +:+ name +:+ " already exists"));;
     varsets ← default_varsets varsets;
     let nw := Z.of_nat (m_nrows (cp_N cp)) in
     let nx := Z.of_nat (m_ncols (cp_N cp)) in
     nv ← count_vars varsets;
     cp ← (if negb (nx =? nv) then
             if nw =? 0 then
               N ← sparse_int_int nw nx;
               mret (CP N (cp_Cw cp) (cp_H cp) (cp_dd cp) (cp_rh cp) (cp_kk cp) (cp_mm cp))
             else
               logger_error ("opf_model.add_costs: number of columns in N (" +:+ pretty nw
                             +:+ " x " +:+ pretty nx +:+ ") does not match" +:+ newline
                             +:+ "number of variables (" +:+ pretty nv +:+ ")" +:+ newline);;
               mret cp
           else mret cp);
     (if negb (len (cp_Cw cp) =? nw) then raise TypeError else mret tt);;
     b ← in_dict_and (cp_H cp);
     when b (logger_error "opf_model.add_costs: both dimensions of H must match the number of rows in N");;
     b ← in_dict_and (cp_dd cp);
     when b (logger_error "opf_model.add_costs: number of rows of dd and N must match");;
     b ← in_dict_and (cp_rh cp);
     when b (logger_error "opf_model.add_costs: number of rows of rh and N must match");;
     b ← in_dict_and (cp_kk cp);
     when b (logger_error "opf_model.add_costs: number of rows of kk and N must match");;
     b ← in_dict_and (cp_mm cp);
     when b (logger_error "opf_model.add_costs: number of rows of mm and N must match");;
     record_costs name cp varsets nw).
Proof. reflexivity. Qed.

(** Line 110 subscripts the object itself: the recording steps of a linear
    block raise before the first store. *)
Lemma record_linear_raises name (A : @matrix F) l u vs N w :
  @record_linear F PPC V name A l u vs N w = (Raise TypeError, w).
Proof. reflexivity. Qed.

(** Every step of a run of completed registrations registers a variable
    block or a nonlinear block. *)
Lemma successful_run_var_or_nonlinear rs w w' :
  successful_run rs w w' -> Forall (fun r => var_or_nonlinear r = true) rs.
Proof.
  induction 1 as [w | r rs w w1 w2 Hr Hlog Hrun IH]; [by constructor|].
  constructor; [|done]. clear IH Hrun.
  destruct r as [name N v0 vl vu | name [N | A l u vs] | name cp vs]; cbn in *; try done.
  - by apply never_ok_not_ok in Hr; [|apply add_linear_never_ok].
  - by apply never_ok_not_ok in Hr; [|apply add_costs_never_ok].
Qed.

(** A completed [add_vars] enters the block right after the last one. *)
Lemma add_vars_appends_block name N v0 vl vu w w' :
  add_vars name N v0 vl vu w = (Ok tt, w') -> errlog w' = errlog w ->
  exists idx t ns ord,
    l_idx (var (om w)) = Some idx /\ l_N (var (om w)) = Some t /\
    l_NS (var (om w)) = Some ns /\ l_order (var (om w)) = Some ord /\
    idx_N idx !! name = None /\
    var (om w') = appended idx t ns ord name N /\
    block_at (var (om w')) (ns + 1) = Some (t + 1, t + N, N) /\
    l_N (var (om w')) = Some (t + N) /\ l_NS (var (om w')) = Some (ns + 1).
Proof.
  intros Hrun Hlog.
  apply add_vars_returns in Hrun
    as (idx & t & ns & ord & Hidx & Ht & Hns & Hord & Hvar & Hn & Hl & Hc & Hmsg).
  pose proof (silent_means_fresh _ _ _ _ _ Hmsg Hlog) as Hfresh.
  exists idx, t, ns, ord. rewrite Hvar, block_at_appended_new. by repeat split.
Qed.

Lemma add_nonlinear_appends_block name N w w' :
  add_constraints name (Nonlinear N) w = (Ok tt, w') -> errlog w' = errlog w ->
  exists idx t ns ord,
    l_idx (nln (om w)) = Some idx /\ l_N (nln (om w)) = Some t /\
    l_NS (nln (om w)) = Some ns /\ l_order (nln (om w)) = Some ord /\
    idx_N idx !! name = None /\
    nln (om w') = appended idx t ns ord name N /\
    block_at (nln (om w')) (ns + 1) = Some (t + 1, t + N, N) /\
    l_N (nln (om w')) = Some (t + N) /\ l_NS (nln (om w')) = Some (ns + 1).
Proof.
  intros Hrun Hlog.
  apply add_nonlinear_returns in Hrun
    as (idx & t & ns & ord & Hidx & Ht & Hns & Hord & Hvar & Hn & Hl & Hc & Hmsg).
  pose proof (silent_means_fresh _ _ _ _ _ Hmsg Hlog) as Hfresh.
  exists idx, t, ns, ord. rewrite Hvar, block_at_appended_new. by repeat split.
Qed.

(** *** The lookups *)

Lemma getN_named sel name w : getN sel (Some name) w = rd_N sel w.
Proof. reflexivity. Qed.

Lemma getN_unnamed sel w :
  getN sel None w =
  (match l_idx (getattr (om w) sel) with Some _ => Ok 0 | None => Raise KeyError end, w).
Proof.
  unfold getN. rewrite bool_decide_eq_false_2 by (intros H; by apply H).
  unfold rd_idx. rewrite !bind_run. cbn.
  by destruct (l_idx (getattr (om w) sel)).
Qed.

Lemma getv_returns_None name w r w' : getv name w = (Ok r, w') -> r = None.
Proof.
  unfold getv. destruct name as [name|]; intros H.
  - apply bind_ok_inv in H as (idx & w1 & _ & H).
    apply bind_ok_inv in H as (x & w2 & _ & H). by inversion H.
  - apply bind_ok_inv in H as (ns & w1 & _ & H).
    apply bind_ok_inv in H as (x & w2 & _ & H). by inversion H.
Qed.

Lemma getv_unnamed_reads_order_0 w ns ord :
  l_NS (var (om w)) = Some ns -> 1 <= ns ->
  l_order (var (om w)) = Some ord -> ord !! 0 = None ->
  getv None w = (Raise KeyError, w).
Proof.
  intros Hns Hpos Hord H0. unfold getv, py_range.
  rewrite bind_run. unfold rd_NS at 1. rewrite bind_run. cbn. rewrite Hns. cbn.
  rewrite seqZ_cons by lia. cbn. rewrite !bind_run. unfold rd_order at 1.
  rewrite bind_run. cbn. rewrite Hord. cbn. rewrite H0. done.
Qed.

Lemma order_from_one_blank : order_from_one blank_ledger.
Proof. exists 0, ∅. by cbn. Qed.

Lemma order_from_one_appended idx t ns ord name N :
  0 <= ns -> ord !! 0 = None -> order_from_one (appended idx t ns ord name N).
Proof.
  intros Hns H0. exists (ns + 1), (<[ns + 1 := name]> ord). cbn.
  repeat split; try done; [lia|]. rewrite lookup_insert_ne by lia. done.
Qed.

Lemma successful_run_order_from_one rs w w' :
  successful_run rs w w' -> order_from_one (var (om w)) -> order_from_one (var (om w')).
Proof.
  induction 1 as [w | r rs w w1 w2 Hr Hlog Hrun IH]; [done|].
  intros (ns & ord & Hns & Hpos & Hord & H0). apply IH.
  destruct r as [name N v0 vl vu | name [N | A l u vs] | name cp vs]; cbn in Hr.
  - apply add_vars_returns in Hr
      as (idx' & t' & ns' & ord' & _ & _ & Hns' & Hord' & Hvar & _).
    simplify_eq. rewrite Hvar. by apply order_from_one_appended.
  - apply add_nonlinear_returns in Hr as (_ & _ & _ & _ & _ & _ & _ & _ & _ & Hv & _).
    rewrite Hv. by exists ns, ord.
  - by apply never_ok_not_ok in Hr; [|apply add_linear_never_ok].
  - by apply never_ok_not_ok in Hr; [|apply add_costs_never_ok].
Qed.

(** After registrations on the blank object that left at least one
    variable block, [getv()] raises [KeyError]. *)
Lemma getv_unnamed_after_registration rs (p : PPC) log w' ns :
  successful_run rs (World (blank p) log) w' ->
  l_NS (var (om w')) = Some ns -> 1 <= ns ->
  getv None w' = (Raise KeyError, w').
Proof.
  intros Hrun Hns Hpos.
  apply successful_run_order_from_one in Hrun as (ns' & ord & Hns' & _ & Hord & H0);
    [|apply order_from_one_blank].
  by apply (getv_unnamed_reads_order_0 w' ns ord).
Qed.

(** *** userdata *)

Lemma find_attribute_userdata : find_attribute "userdata" = InInstance.
Proof. reflexivity. Qed.

Lemma find_attribute_getN : find_attribute "getN" = InClass.
Proof. reflexivity. Qed.

Lemma userdata_method_set name (v : V) w :
  userdata_method name (Some v) w =
  (Ok None, World (set_userdata (<[name := v]> (userdata (om w))) (om w)) (errlog w)).
Proof. reflexivity. Qed.

Lemma userdata_method_get name w :
  userdata_method name None w = (Ok (userdata (om w) !! name), w).
Proof.
  unfold userdata_method, contains. rewrite bind_run. unfold read_self at 1. cbv beta iota.
  destruct (userdata (om w) !! name) as [v|] eqn:E.
  - rewrite bool_decide_eq_true_2 by eauto. rewrite bind_run. unfold read_self. cbv beta iota.
    unfold fmap, M_fmap. by rewrite E.
  - rewrite bool_decide_eq_false_2; [done|]. by intros [? ?].
Qed.

(** Had the function been reachable, it would store and give back. *)
Lemma userdata_method_roundtrip name (v : V) w :
  fst (userdata_method name None (snd (userdata_method name (Some v) w))) = Ok (Some v).
Proof. rewrite userdata_method_set, userdata_method_get. cbn. by rewrite lookup_insert_eq. Qed.

(** *** compute_cost *)

Lemma never_ok_bitwise_and_float a kk : @never_ok F PPC V _ (bitwise_and_float a kk).
Proof. done. Qed.

Lemma compute_cost_never_ok x name : @never_ok F PPC V _ (compute_cost x name).
Proof.
  unfold compute_cost.
  repeat first
    [ apply never_ok_bind_l; apply never_ok_bitwise_and_float
    | apply never_ok_bind_r; intros; cbv zeta ].
Qed.

(** *** Assembly reads the order from position 0 *)

Lemma linear_constraints_reads_order_0 w n m ns ord :
  l_N (lin (om w)) = Some n -> 0 <= n ->
  l_N (var (om w)) = Some m -> 0 <= m ->
  l_NS (lin (om w)) = Some ns -> 1 <= ns ->
  l_order (lin (om w)) = Some ord -> ord !! 0 = None ->
  linear_constraints w = (Raise KeyError, w).
Proof.
  intros Hn Hn0 Hm Hm0 Hns Hpos Hord H0. unfold linear_constraints, py_range.
  unfold rd_N, rd_NS, sparse_zeros, ones, np_full.
  repeat (rewrite bind_run; cbn; rewrite ?Hn, ?Hm, ?Hns; cbn).
  destruct (n <? 0) eqn:E1; [lia|]. destruct (m <? 0) eqn:E2; [lia|]. cbn.
  unfold fmap, M_fmap, mret, M_ret.
  repeat (rewrite bind_run; cbn; rewrite ?Hn, ?Hm, ?Hns, ?E1; cbn).
  rewrite seqZ_cons by lia. cbn. unfold rd_order.
  repeat (rewrite bind_run; cbn; rewrite ?Hord, ?H0; cbn).
  done.
Qed.


(** *** The object built by __init__ *)

(** C10: on the object built by [__init__] every registration (variables,
    linear and nonlinear constraints, costs) raises [KeyError] at its first
    read of the store's bookkeeping and leaves the object and the log as
    they were.  Hence no run of registrations started there completes its
    first step, and however many registrations a caller attempts, each one
    raises and the object stays as [__init__] built it. *)
Theorem C10_fresh_model_rejects_registration (p : PPC) (log : list string) (r : registration) :
  let w := @World F PPC V (init p) log in
  register r w = (Raise KeyError, w) /\
  (forall rs w', ~ successful_run (r :: rs) w w') /\
  (forall rs, attempt_all rs w = (replicate (length rs) (Raise KeyError), w)).
Proof.
  intros w.
  assert (Hr : forall r', register r' w = (Raise KeyError, w))
    by (intros [? ? ? ? ? | ? [?|? ? ? ?] | ? ? ?]; reflexivity).
  split; [apply Hr|]. split.
  - intros rs w' Hrun. inversion Hrun; subst. rewrite Hr in *. congruence.
  - induction rs as [|r' rs IH]; [done|]. cbn [attempt_all]. rewrite Hr, IH. done.
Qed.

(** C9: the call [om.userdata(name, val)] raises [TypeError] for every
    object, key and value, and changes nothing: [__init__] binds the
    instance attribute [userdata] to a dict, which hides the function of the
    same name, and a dict is not callable.  Nothing is stored and nothing is
    returned. *)
Theorem C9_userdata_call_raises (name : string) (val : option V) w :
  call_userdata name val w = (Raise TypeError, w).
Proof. reflexivity. Qed.

End Facts.

(** ** The methods on concrete data *)

Lemma contiguous_blank_world (s : selector) : contiguous (getattr (om blank_world) s).
Proof. destruct s; apply contiguous_blank. Qed.

(** The three registrations of [c1_regs] all complete. *)
Lemma c1_regs_run : successful_run c1_regs blank_world c1_final.
Proof.
  unfold c1_regs.
  eapply run_step; [vm_compute; reflexivity | reflexivity |].
  eapply run_step; [vm_compute; reflexivity | reflexivity |].
  eapply run_step; [vm_compute; reflexivity | reflexivity |].
  vm_compute. apply run_done.
Qed.

(** C1: index contiguity holds of the blocks that get recorded, and only
    variable and nonlinear blocks ever are.

    Variables and nonlinear constraints: a completed [add_vars], and a
    completed nonlinear [add_constraints], enters its block right after the
    last one, at position [NS + 1] of the order with
    [(i1, iN, N) = (total + 1, total + N, N)], and the total becomes
    [total + N]; a run of completed registrations keeps the four stores
    contiguous.  After [a] (2), [g] (4 nonlinear), [b] (3) on the blank
    object: [a = (1, 2, 2)], [b = (3, 5, 3)], total 5; [g = (1, 4, 4)],
    total 4.

    Linear constraints and costs: no block is ever recorded.  The linear
    [add_constraints] raises on every input (line 110 subscripts the object
    itself) and [add_costs] raises on every input (the guard of line 196),
    so every step of a run of completed registrations registers a variable
    or a nonlinear block, and the [lin] and [cost] stores are as the run
    found them.

    The recording lines on their own do not establish the invariant
    either.  Lines 110-123 raise [TypeError] before their first store.
    Lines 212-238 write the index entry under the block's name and then, at
    line 234, read the total under the literal key ["name"]: on a store
    without a block of that name they raise [KeyError], leaving the index
    entry written and the total, the block count and the order as they
    were; on a store that holds a block called [name] they return, and the
    total is the [iN] of that block, not of the block just recorded.  With
    [name = (1, 2, 2)] and then [c = (3, 3, 1)] the total stays 2 and the
    store is not contiguous.

    On the object that [__init__] builds every registration raises
    [KeyError]. *)
Theorem C1_no_linear_or_cost_block_is_ever_recorded :
  (* variables and nonlinear constraints: the block is appended *)
  (forall name N v0 vl vu (w w' : xworld),
     add_vars name N v0 vl vu w = (Ok tt, w') -> errlog w' = errlog w ->
     exists idx t ns ord,
       l_idx (var (om w)) = Some idx /\ l_N (var (om w)) = Some t /\
       l_NS (var (om w)) = Some ns /\ l_order (var (om w)) = Some ord /\
       idx_N idx !! name = None /\
       var (om w') = appended idx t ns ord name N /\
       block_at (var (om w')) (ns + 1) = Some (t + 1, t + N, N) /\
       l_N (var (om w')) = Some (t + N) /\ l_NS (var (om w')) = Some (ns + 1)) /\
  (forall name N (w w' : xworld),
     add_constraints name (Nonlinear N) w = (Ok tt, w') -> errlog w' = errlog w ->
     exists idx t ns ord,
       l_idx (nln (om w)) = Some idx /\ l_N (nln (om w)) = Some t /\
       l_NS (nln (om w)) = Some ns /\ l_order (nln (om w)) = Some ord /\
       idx_N idx !! name = None /\
       nln (om w') = appended idx t ns ord name N /\
       block_at (nln (om w')) (ns + 1) = Some (t + 1, t + N, N) /\
       l_N (nln (om w')) = Some (t + N) /\ l_NS (nln (om w')) = Some (ns + 1)) /\
  (forall rs (w w' : xworld),
     successful_run rs w w' ->
     Forall (fun r => var_or_nonlinear r = true) rs /\
     lin (om w') = lin (om w) /\ cost (om w') = cost (om w) /\
     ((forall s, contiguous (getattr (om w) s)) -> forall s, contiguous (getattr (om w') s))) /\
  (successful_run c1_regs blank_world c1_final /\
   block_at (var (om c1_final)) 1 = Some (1, 2, 2) /\
   block_at (var (om c1_final)) 2 = Some (3, 5, 3) /\
   l_N (var (om c1_final)) = Some 5 /\
   block_at (nln (om c1_final)) 1 = Some (1, 4, 4) /\
   l_N (nln (om c1_final)) = Some 4) /\
  (* linear constraints: never recorded *)
  (forall name A l u vs (w : xworld),
     is_ok (fst (add_constraints name (Linear A l u vs) w)) = false) /\
  (forall name A l u vs N (w : xworld),
     record_linear name A l u vs N w = (Raise TypeError, w)) /\
  reg_pbal w_pg = (Raise TypeError, w_pg) /\
  l_NS (lin (om w_pg)) = Some 0 /\
  (* costs: never recorded *)
  (forall name cp vs (w : xworld), is_ok (fst (add_costs name cp vs w)) = false) /\
  add_costs "c" cp_lin (Some ["x"]) w_x = (Raise KeyError, w_x) /\
  (* lines 212-238 on their own *)
  (let r := record_costs "c" cp_lin (VsList ["x"]) 1 w_x in
   fst r = Raise KeyError /\
   l_idx (cost (om (snd r))) = Some (Idx {["c" := 1]} {["c" := 1]} {["c" := 1]}) /\
   l_N (cost (om (snd r))) = Some 0 /\ l_NS (cost (om (snd r))) = Some 0 /\
   l_order (cost (om (snd r))) = Some ∅) /\
  (let r := record_costs "c" cp_lin (VsList ["x"]) 1 w_cost_name in
   record_costs "name" cp_two (VsList ["x"]) 2 w_x = (Ok tt, w_cost_name) /\
   block_at (cost (om w_cost_name)) 1 = Some (1, 2, 2) /\
   l_N (cost (om w_cost_name)) = Some 2 /\
   contiguous (cost (om w_cost_name)) /\
   fst r = Ok tt /\ errlog (snd r) = [] /\
   block_at (cost (om (snd r))) 1 = Some (1, 2, 2) /\
   block_at (cost (om (snd r))) 2 = Some (3, 3, 1) /\
   l_NS (cost (om (snd r))) = Some 2 /\
   l_N (cost (om (snd r))) = Some 2 /\
   ~ contiguous (cost (om (snd r)))) /\
  (* the object built by __init__ *)
  (forall r : registration, register r fresh_world = (Raise KeyError, fresh_world)).
Proof.
  split; [intros *; apply add_vars_appends_block|].
  split; [intros *; apply add_nonlinear_appends_block|].
  split.
  { intros rs w w' Hrun. split; [exact (successful_run_var_or_nonlinear rs w w' Hrun)|].
    destruct (successful_run_frames_lin_cost rs w w' Hrun) as [Hl Hc].
    repeat split; try done. exact (successful_run_contiguous rs w w' Hrun). }
  split; [split; [exact c1_regs_run | vm_compute; repeat split]|].
  split; [intros; apply add_linear_never_ok|].
  split; [intros; reflexivity|].
  split; [vm_compute; reflexivity|].
  split; [vm_compute; reflexivity|].
  split; [intros; apply add_costs_never_ok|].
  split; [vm_compute; reflexivity|].
  split; [vm_compute; repeat split|].
  split; [|intros [? ? ? ? ? | ? [?|? ? ? ?] | ? ? ?]; reflexivity].
  cbv zeta.
  split; [vm_compute; reflexivity|].
  split; [vm_compute; reflexivity|].
  split; [vm_compute; reflexivity|].
  split.
  { exists 1, 2. split; [reflexivity|]. split; [lia|].
    split; [|split; vm_compute; reflexivity].
    intros k Hk. assert (k = 1) as -> by lia.
    exists 1, 2, 2, 0. vm_compute. repeat split. }
  split; [vm_compute; reflexivity|].
  split; [vm_compute; reflexivity|].
  split; [vm_compute; reflexivity|].
  split; [vm_compute; reflexivity|].
  split; [vm_compute; reflexivity|].
  split; [vm_compute; reflexivity|].
  intros (ns & tot & Hns & _ & _ & Htot & Hend).
  assert (ns = 2) as -> by (vm_compute in Hns; congruence).
  assert (tot = 2) as -> by (vm_compute in Htot; congruence).
  vm_compute in Hend. discriminate Hend.
Qed.

(** C3: a second [add_vars] under the name [a] returns normally.  It logs
    the message and then overwrites the entry of [a] (from (1, 2, 2) to
    (3, 5, 3)), raises the total from 2 to 5 and the block count from 1 to
    2, and appends [a] to the order once more; the snapshots of [get_idx]
    before and after differ.  The nonlinear [add_constraints] does the same
    for a second block [g]. *)
Theorem C3_duplicate_name_is_registered :
  let r := add_vars "a" 3 None None None w_a in
  let r' := add_constraints "g" (Nonlinear 1) w_g in
  (l_idx (var (om w_a)) = Some (Idx {["a" := 1]} {["a" := 2]} {["a" := 2]}) /\
   l_N (var (om w_a)) = Some 2 /\ l_NS (var (om w_a)) = Some 1) /\
  fst r = Ok tt /\
  errlog (snd r) = ["opf_model.add_vars: variable set named a already exists"] /\
  l_idx (var (om (snd r))) = Some (Idx {["a" := 3]} {["a" := 5]} {["a" := 3]}) /\
  l_N (var (om (snd r))) = Some 5 /\ l_NS (var (om (snd r))) = Some 2 /\
  l_order (var (om (snd r))) = Some {[1 := "a"; 2 := "a"]} /\
  fst (get_idx (snd r)) <> fst (get_idx w_a) /\
  fst r' = Ok tt /\
  l_idx (nln (om w_g)) = Some (Idx {["g" := 1]} {["g" := 4]} {["g" := 4]}) /\
  l_idx (nln (om (snd r'))) = Some (Idx {["g" := 5]} {["g" := 5]} {["g" := 1]}) /\
  l_N (nln (om (snd r'))) = Some 5 /\
  fst (get_idx (snd r')) <> fst (get_idx w_g).
Proof.
  vm_compute. repeat split; try reflexivity; intros H; discriminate H.
Qed.

(** C7: with blocks a (2) and b (3) registered, total 5: [getN('var')]
    returns 0, [getN('var', 'a')] returns 5, and [getN('var', 'zz')] for a
    name never registered returns 5.  The test [name is not None] selects
    the total, and the other branch looks up [None]. *)
Theorem C7_getN_swaps_its_cases :
  (l_N (var (om w_ab)) = Some 5 /\
   idx_N <$> l_idx (var (om w_ab)) = Some {["a" := 2; "b" := 3]}) /\
  getN sel_var None w_ab = (Ok 0, w_ab) /\
  getN sel_var (Some "a") w_ab = (Ok 5, w_ab) /\
  getN sel_var (Some "zz") w_ab = (Ok 5, w_ab).
Proof. vm_compute. repeat split. Qed.

(** C8: with the block [Pg] registered (v0 = zeros, vl = 0, vu = 100),
    [getv('Pg')] returns [None], [getv('zz')] returns [None], and [getv()]
    raises [KeyError] at [order[0]]; on the blank object [getv()] returns
    [None].  No call returns vectors. *)
Theorem C8_getv_returns_nothing :
  (d_v0 <$> var_dat (om w_pg) = Some {["Pg" := [XFin 0; XFin 0; XFin 0]]} /\
   d_vl <$> var_dat (om w_pg) = Some {["Pg" := [XFin 0; XFin 0; XFin 0]]} /\
   d_vu <$> var_dat (om w_pg) = Some {["Pg" := [XFin 100; XFin 100; XFin 100]]}) /\
  getv (Some "Pg") w_pg = (Ok None, w_pg) /\
  getv (Some "zz") w_pg = (Ok None, w_pg) /\
  getv None w_pg = (Raise KeyError, w_pg) /\
  getv None blank_world = (Ok None, blank_world).
Proof. vm_compute. repeat split. Qed.

(** C2: the scenario Pg / Pbal.  Registering [Pbal] raises [TypeError] (at
    [self["lin"]]) and records nothing, so assembly returns a matrix with
    no row and empty [l], [u].  With the block written into the store the
    way the registration would record it, assembly raises [KeyError] at
    [order[0]].  In neither case does the result hold the row of ones and
    l = u = 150. *)
Theorem C2_linear_assembly_misses_blocks :
  reg_pbal w_pg = (Raise TypeError, w_pg) /\
  linear_constraints w_pg = (Ok (Matrix 3 [], [], []), w_pg) /\
  linear_constraints w_pbal = (Raise KeyError, w_pbal).
Proof. vm_compute. repeat split. Qed.

(** With the same block numbered from 0 the loop does run: the slice
    [i1:iN] = [1:1] selects no row, and the assignment of the one-row block
    at line 663 raises [ValueError]. *)
Example linear_constraints_order_from_0 :
  linear_constraints w_pbal0 = (Raise ValueError, w_pbal0).
Proof. vm_compute. reflexivity. Qed.

(** C4: one cost row with N = [[1]], Cw = [1], H = 0, dd = 1, rh = 0,
    kk = 0, at x = [3]: [compute_cost] raises [TypeError] instead of
    returning 3.  A block with these N and Cw cannot be registered
    ([add_costs] raises [KeyError] at [cp["H"]]), [build_cost_params] on a
    store that holds it raises [KeyError] at [order[0]], and on the store
    without it builds parameters with no row, on which [compute_cost]
    raises as well. *)
Theorem C4_compute_cost_linear_case_raises :
  compute_cost [XFin 3] None (with_params p_lin w_x) = (Raise TypeError, with_params p_lin w_x) /\
  add_costs "c" cp_lin (Some ["x"]) w_x = (Raise KeyError, w_x) /\
  build_cost_params w_cost1 = (Raise KeyError, w_cost1) /\
  fst (build_cost_params w_x) = Ok tt /\
  cost_params (om (exec build_cost_params w_x)) =
    Some (Params (Matrix 1 []) [] (Matrix 0 []) [] [] [] []) /\
  fst (compute_cost [XFin 3] None (exec build_cost_params w_x)) = Raise TypeError.
Proof. vm_compute. repeat split. Qed.

(** C5: one cost row with N = [[1]], rh = 0, kk = 5, dd = 2, so that
    R = x: at x = 5, -5, 6 and -6 [compute_cost] raises [TypeError]; no
    contribution, zero or not, is returned. *)
Theorem C5_compute_cost_dead_zone_raises :
  let w := with_params p_dead w_x in
  compute_cost [XFin 5] None w = (Raise TypeError, w) /\
  compute_cost [XFin (-5)] None w = (Raise TypeError, w) /\
  compute_cost [XFin 6] None w = (Raise TypeError, w) /\
  compute_cost [XFin (-6)] None w = (Raise TypeError, w).
Proof. vm_compute. repeat split. Qed.

(** C6: with the variable block [a] registered, a linear block and a cost
    block given without [varsets] are not registered: both calls raise
    [KeyError] (at [varsets[0]], [varsets] being the order mapping, whose
    first key is 1) and leave the object as it was.  The default that the
    code binds is the object [self.var["order"]] itself: its length is 1
    before [b] is registered and 2 after. *)
Theorem C6_default_varsets_registration_fails :
  add_constraints "c" (Linear (Matrix 2 [[XFin 1; XFin 1]]) [XFin 0] [XFin 1] None) w_a
    = (Raise KeyError, w_a) /\
  add_costs "c" (CP (Matrix 2 [[XFin 1; XFin 1]]) [XFin 1] None None None None None) None w_a
    = (Raise KeyError, w_a) /\
  default_varsets None w_a = (Ok VsVarOrder, w_a) /\
  vs_getitem VsVarOrder 0 w_a = (Raise KeyError, w_a) /\
  vs_len VsVarOrder w_a = (Ok 1, w_a) /\
  vs_len VsVarOrder w_ab = (Ok 2, w_ab).
Proof. vm_compute. repeat split. Qed.

(** * Further properties of the methods *)

Section MoreFacts.
Context {F : Type} {FO : Float64 F} {PPC V : Type}.
Implicit Types (w : @world F PPC V).

Lemma default_vec_ok_inv v x n w a w' :
  default_vec v (np_full x n) w = (Ok a, w') ->
  w' = w /\ a = chosen v (replicate (Z.to_nat n) x) /\ (needs_default v = true -> 0 <= n).
Proof.
  unfold default_vec, chosen, needs_default, np_full.
  destruct v as [b|]; [destruct (len b =? 0)|]; destruct (n <? 0) eqn:E; cbn;
    intros H; inversion H; subst; repeat split; try done; lia.
Qed.

Lemma default_vec_scaled_ok_inv v c x n w a w' :
  default_vec v (scale c <$> np_full x n) w = (Ok a, w') ->
  w' = w /\ a = chosen v (scale c (replicate (Z.to_nat n) x)) /\ (needs_default v = true -> 0 <= n).
Proof.
  unfold default_vec, chosen, needs_default, np_full, fmap, M_fmap.
  destruct v as [b|]; [destruct (len b =? 0)|]; destruct (n <? 0) eqn:E; cbn;
    intros H; inversion H; subst; repeat split; try done; lia.
Qed.

(** Everything a call of [add_vars] that returns has done. *)
Lemma add_vars_final name N v0 vl vu w w' :
  add_vars name N v0 vl vu w = (Ok tt, w') ->
  exists idx t ns ord d,
    l_idx (var (om w)) = Some idx /\ l_N (var (om w)) = Some t /\
    l_NS (var (om w)) = Some ns /\ l_order (var (om w)) = Some ord /\
    var_dat (om w) = Some d /\
    om w' = OM (ppc (om w)) (appended idx t ns ord name N)
               (Some (VarData
                  (<[name := chosen v0 (replicate (Z.to_nat N) f_zero)]> (d_v0 d))
                  (<[name := chosen vl (scale (f_neg f_inf) (replicate (Z.to_nat N) f_one))]> (d_vl d))
                  (<[name := chosen vu (scale f_inf (replicate (Z.to_nat N) f_one))]> (d_vu d))))
               (nln (om w)) (lin (om w)) (lin_dat (om w)) (cost (om w)) (cost_dat (om w))
               (cost_params (om w)) (userdata (om w)).
Proof.
  unfold add_vars, zeros, ones. intros H.
  apply bind_ok_inv in H as (idx & w1 & H1 & H). apply rd_idx_ok_inv in H1 as [Hidx ->].
  apply bind_ok_inv in H as (? & w1 & H1 & H). apply when_log_inv in H1 as [Ho Hl].
  apply bind_ok_inv in H as (v0' & w2 & H2 & H).
  apply default_vec_ok_inv in H2 as (-> & -> & _).
  apply bind_ok_inv in H as (vl' & w2 & H2 & H).
  apply default_vec_scaled_ok_inv in H2 as (-> & -> & _).
  apply bind_ok_inv in H as (vu' & w2 & H2 & H).
  apply default_vec_scaled_ok_inv in H2 as (-> & -> & _).
  apply bind_ok_inv in H as (t & w2 & H2 & H). apply rd_N_ok_inv in H2 as [Ht ->].
  apply bind_ok_inv in H as (? & w2 & H2 & H). apply wr_idx_ok_inv in H2 as (idx1 & Hi1 & ->).
  apply bind_ok_inv in H as (t' & w2 & H2 & H). apply rd_N_ok_inv in H2 as [Ht' ->].
  apply bind_ok_inv in H as (? & w2 & H2 & H). apply wr_idx_ok_inv in H2 as (idx2 & Hi2 & ->).
  apply bind_ok_inv in H as (? & w2 & H2 & H). apply wr_idx_ok_inv in H2 as (idx3 & Hi3 & ->).
  apply bind_ok_inv in H as (? & w2 & H2 & H). apply wr_var_dat_ok_inv in H2 as (d1 & Hd1 & ->).
  apply bind_ok_inv in H as (? & w2 & H2 & H). apply wr_var_dat_ok_inv in H2 as (d2 & Hd2 & ->).
  apply bind_ok_inv in H as (? & w2 & H2 & H). apply wr_var_dat_ok_inv in H2 as (d3 & Hd3 & ->).
  apply bind_ok_inv in H as (idx4 & w2 & H2 & H). apply rd_idx_ok_inv in H2 as [Hi4 ->].
  apply bind_ok_inv in H as (e & w2 & H2 & H). apply getitem_ok_inv in H2 as [He ->].
  apply bind_ok_inv in H as (? & w2 & H2 & H). cbn in H2. inversion H2; subst w2; clear H2.
  apply bind_ok_inv in H as (ns & w2 & H2 & H). apply rd_NS_ok_inv in H2 as [Hns ->].
  apply bind_ok_inv in H as (? & w2 & H2 & H). cbn in H2. inversion H2; subst w2; clear H2.
  apply append_order_ok_inv in H as (ord & ns' & Hord & Hns' & ->).
  cbn in *. rewrite Ho in *. clear Ho. simplify_eq. cbn in *.
  rewrite lookup_insert_eq in He. simplify_eq.
  exists idx, t, ns, ord, d1. unfold appended. repeat split; done.
Qed.

Lemma get_idx_run w :
  get_idx w =
  (match l_idx (var (om w)), l_idx (lin (om w)), l_idx (nln (om w)), l_idx (cost (om w)) with
   | Some vv, Some ll, Some nn, Some cc => Ok (vv, ll, nn, cc)
   | _, _, _, _ => Raise KeyError
   end, w).
Proof.
  unfold get_idx, rd_idx. repeat (rewrite bind_run; cbn).
  destruct (l_idx (var (om w))); cbn; [|done]. repeat (rewrite bind_run; cbn).
  destruct (l_idx (lin (om w))); cbn; [|done]. repeat (rewrite bind_run; cbn).
  destruct (l_idx (nln (om w))); cbn; [|done]. repeat (rewrite bind_run; cbn).
  destruct (l_idx (cost (om w))); cbn; done.
Qed.

(** X1: after a call of [add_vars] that returns, [get_idx] gives the snapshot
    taken before the call with the entry of the new block set to
    (total + 1, total + N, N) in the variable index and the three other
    indexes as they were; the variable total has grown by N. *)
Theorem X1_add_vars_then_get_idx name N v0 vl vu w w' vv ll nn cc t :
  fst (get_idx w) = Ok (vv, ll, nn, cc) ->
  l_N (var (om w)) = Some t ->
  add_vars name N v0 vl vu w = (Ok tt, w') ->
  get_idx w' =
    (Ok (Idx (<[name := t + 1]> (idx_i1 vv)) (<[name := t + N]> (idx_iN vv))
             (<[name := N]> (idx_N vv)), ll, nn, cc), w') /\
  l_N (var (om w')) = Some (t + N).
Proof.
  intros Hget Ht Hadd. rewrite get_idx_run in Hget. cbn in Hget.
  apply add_vars_final in Hadd
    as (idx & t' & ns & ord & d & Hidx & Ht' & Hns & Hord & Hd & Hom).
  rewrite get_idx_run, Hom. cbn.
  rewrite Hidx in Hget.
  destruct (l_idx (lin (om w))) as [ll0|]; [|done].
  destruct (l_idx (nln (om w))) as [nn0|]; [|done].
  destruct (l_idx (cost (om w))) as [cc0|]; [|done].
  simplify_eq. done.
Qed.

(** X2: a call of [add_vars] that returns stores under the block's name the
    three vectors it was given, each one replaced by its default (zeros,
    -Inf, +Inf, of length N) when it is [None] or empty, and leaves the
    vectors stored under every other name as they were. *)
Theorem X2_add_vars_stores_vectors name N v0 vl vu w w' :
  add_vars name N v0 vl vu w = (Ok tt, w') ->
  exists d d', var_dat (om w) = Some d /\ var_dat (om w') = Some d' /\
    d_v0 d' !! name = Some (chosen v0 (replicate (Z.to_nat N) f_zero)) /\
    d_vl d' !! name = Some (chosen vl (scale (f_neg f_inf) (replicate (Z.to_nat N) f_one))) /\
    d_vu d' !! name = Some (chosen vu (scale f_inf (replicate (Z.to_nat N) f_one))) /\
    forall other, other <> name ->
      d_v0 d' !! other = d_v0 d !! other /\ d_vl d' !! other = d_vl d !! other /\
      d_vu d' !! other = d_vu d !! other.
Proof.
  intros Hadd.
  apply add_vars_final in Hadd
    as (idx & t' & ns & ord & d & Hidx & Ht' & Hns & Hord & Hd & Hom).
  exists d. eexists. split; [done|]. rewrite Hom. cbn. split; [done|]. cbn.
  rewrite !lookup_insert_eq. repeat split; try done;
    by rewrite lookup_insert_ne.
Qed.

(** With the bookkeeping in place, [add_vars] returns as soon as no default
    vector of negative length has to be built. *)
Lemma add_vars_runs_with_vectors name N v0 vl vu w idx t ns ord d :
  l_idx (var (om w)) = Some idx -> l_N (var (om w)) = Some t ->
  l_NS (var (om w)) = Some ns -> l_order (var (om w)) = Some ord ->
  var_dat (om w) = Some d ->
  (needs_default v0 || needs_default vl || needs_default vu = true -> 0 <= N) ->
  fst (add_vars name N v0 vl vu w) = Ok tt.
Proof.
  destruct w as [[p [vi vt vn vo] vd nl ll ld cl cd cp ud] log]. cbn.
  intros -> -> -> -> -> HN. unfold add_vars.
  unfold rd_idx, rd_N, rd_NS, when, default_vec, zeros, ones, np_full, needs_default in *.
  unfold fmap, M_fmap, mret, M_ret.
  destruct v0 as [a0|]; [destruct (len a0 =? 0)|];
    (destruct vl as [a1|]; [destruct (len a1 =? 0)|]);
    (destruct vu as [a2|]; [destruct (len a2 =? 0)|]); cbn in HN;
    try (assert (HN' : (N <? 0) = false) by lia; rewrite HN');
    unfold set_i1, set_iN, set_Nof, wr_idx, wr_N, wr_NS, wr_var_dat, append_order;
    repeat (rewrite bind_run; cbn);
    destruct (contains (idx_N idx) name); cbn;
    repeat (rewrite bind_run; cbn); rewrite lookup_insert_eq; reflexivity.
Qed.

(** [zeros] and [ones] in the model: the length must not be negative. *)
Lemma np_full_ok_iff (x : F) n w : is_ok (fst (np_full x n w)) = true <-> 0 <= n.
Proof.
  unfold np_full. destruct (n <? 0) eqn:E; cbn; split; intros; try done; lia.
Qed.

(** X3: with the bookkeeping of the variable store in place, [add_vars]
    returns exactly when each default vector it needs can be built:
    [zeros(N)] when [v0] is [None] or empty, [ones(N)] when [vl] is, and
    [ones(N)] when [vu] is.  Building a default is the only step of the call
    that can fail; with the three vectors given and not empty the call
    returns for every [N]. *)
Theorem X3_add_vars_returns_iff_defaults_built name N v0 vl vu w idx t ns ord d :
  l_idx (var (om w)) = Some idx -> l_N (var (om w)) = Some t ->
  l_NS (var (om w)) = Some ns -> l_order (var (om w)) = Some ord ->
  var_dat (om w) = Some d ->
  (fst (add_vars name N v0 vl vu w) = Ok tt <->
   (needs_default v0 = true -> is_ok (fst (zeros N w)) = true) /\
   (needs_default vl = true -> is_ok (fst (ones N w)) = true) /\
   (needs_default vu = true -> is_ok (fst (ones N w)) = true)).
Proof.
  intros Hidx Ht Hns Hord Hd. unfold zeros, ones. rewrite !np_full_ok_iff. split.
  - intros Hrun.
    destruct (add_vars name N v0 vl vu w) as [r w'] eqn:E. cbn in Hrun. subst r.
    unfold add_vars, zeros, ones in E.
    apply bind_ok_inv in E as (? & w1 & _ & H).
    apply bind_ok_inv in H as (? & w2 & _ & H).
    apply bind_ok_inv in H as (v0' & w3 & H3 & H).
    apply default_vec_ok_inv in H3 as (-> & -> & H0).
    apply bind_ok_inv in H as (vl' & w3 & H3 & H).
    apply default_vec_scaled_ok_inv in H3 as (-> & -> & H1).
    apply bind_ok_inv in H as (vu' & w3 & H3 & H).
    apply default_vec_scaled_ok_inv in H3 as (-> & -> & H2).
    done.
  - intros (H0 & H1 & H2). eapply add_vars_runs_with_vectors; try done.
    destruct (needs_default v0); [auto|]. destruct (needs_default vl); [auto|].
    destruct (needs_default vu); [auto|]. done.
Qed.

(** X4: with a negative N and at least one vector left to its default,
    [add_vars] raises [ValueError] (numpy refuses a negative dimension)
    before any store is made: the object is unchanged. *)
Theorem X4_add_vars_negative_count name N v0 vl vu w idx :
  l_idx (var (om w)) = Some idx ->
  N < 0 -> needs_default v0 || needs_default vl || needs_default vu = true ->
  fst (add_vars name N v0 vl vu w) = Raise ValueError /\
  om (snd (add_vars name N v0 vl vu w)) = om w.
Proof.
  destruct w as [o log]. cbn. intros Hidx HN Hneed. unfold add_vars.
  unfold rd_idx, when, default_vec, zeros, ones, np_full, needs_default in *.
  assert (HN' : (N <? 0) = true) by lia. rewrite HN'.
  unfold fmap, M_fmap, mret, M_ret.
  repeat (rewrite bind_run; cbn). rewrite Hidx. cbn.
  destruct v0 as [a0|]; [destruct (len a0 =? 0)|];
    (destruct vl as [a1|]; [destruct (len a1 =? 0)|]);
    (destruct vu as [a2|]; [destruct (len a2 =? 0)|]); cbn in Hneed; try done;
    destruct (contains (idx_N idx) name); cbn; repeat (rewrite bind_run; cbn); done.
Qed.

(** X5: when the variable store holds [idx] and [N] but no [data] entry,
    [add_vars] raises [KeyError] at line 269, after lines 266-268 have run:
    the index entry of the block is written, while [N], [NS] and [order]
    are as before.  The failed call is not undone. *)
Theorem X5_add_vars_without_data_is_partial name N v0 vl vu w idx t :
  l_idx (var (om w)) = Some idx -> l_N (var (om w)) = Some t -> var_dat (om w) = None ->
  (needs_default v0 || needs_default vl || needs_default vu = true -> 0 <= N) ->
  let r := add_vars name N v0 vl vu w in
  fst r = Raise KeyError /\
  l_idx (var (om (snd r))) =
    Some (Idx (<[name := t + 1]> (idx_i1 idx)) (<[name := t + N]> (idx_iN idx))
              (<[name := N]> (idx_N idx))) /\
  l_N (var (om (snd r))) = Some t /\
  l_NS (var (om (snd r))) = l_NS (var (om w)) /\
  l_order (var (om (snd r))) = l_order (var (om w)).
Proof.
  destruct w as [[p [vi vt vn vo] vd nl ll ld cl cd cp ud] log]. cbn.
  intros -> -> -> HN. unfold add_vars.
  unfold rd_idx, rd_N, rd_NS, when, default_vec, zeros, ones, np_full, needs_default in *.
  unfold fmap, M_fmap, mret, M_ret.
  destruct v0 as [a0|]; [destruct (len a0 =? 0)|];
    (destruct vl as [a1|]; [destruct (len a1 =? 0)|]);
    (destruct vu as [a2|]; [destruct (len a2 =? 0)|]); cbn in HN;
    try (assert (HN' : (N <? 0) = false) by lia; rewrite HN');
    unfold set_i1, set_iN, set_Nof, wr_idx, wr_N, wr_NS, wr_var_dat, append_order;
    repeat (rewrite bind_run; cbn);
    destruct (contains (idx_N idx) name); cbn;
    repeat (rewrite bind_run; cbn); done.
Qed.

(** X6: with the bookkeeping of the nonlinear store in place, the nonlinear
    [add_constraints] returns on every name and count; it appends the
    block (total + 1, total + N, N), and a name already present only adds
    the message to the log. *)
Theorem X6_add_nonlinear_runs name N w idx t ns ord :
  l_idx (nln (om w)) = Some idx -> l_N (nln (om w)) = Some t ->
  l_NS (nln (om w)) = Some ns -> l_order (nln (om w)) = Some ord ->
  add_constraints name (Nonlinear N) w =
  (Ok tt,
   World (set_ledger sel_nln (appended idx t ns ord name N) (om w))
         (errlog w ++
          (if contains (idx_N idx) name
           then ["opf_model.add_constraints: nonlinear constraint set named '" +:+ name
                 +:+ "' already exists"]
           else []))).
Proof.
  destruct w as [[p vl vd [ni nt nn no] ll ld cl cd cp ud] log]. cbn.
  intros -> -> -> ->. unfold add_constraints.
  unfold rd_idx, rd_N, rd_NS, when.
  unfold set_i1, set_iN, set_Nof, wr_idx, wr_N, wr_NS, append_order.
  repeat (rewrite bind_run; cbn).
  destruct (contains (idx_N idx) name); cbn;
    repeat (rewrite bind_run; cbn); rewrite lookup_insert_eq; cbn;
    unfold appended; rewrite ?app_nil_r; reflexivity.
Qed.

(** *** What a computation leaves alone *)

Lemma keeps_ret {X A : Type} (f : opf_model -> X) (a : A) : @keeps F PPC V X A f (mret a).
Proof. intros w r w' H. by inversion H. Qed.

Lemma keeps_raise {X A : Type} (f : opf_model -> X) e : @keeps F PPC V X A f (raise e).
Proof. intros w r w' H. by inversion H. Qed.

Lemma keeps_bind {X A B : Type} (f : opf_model -> X) (m : @M F PPC V A) (k : A -> M B) :
  keeps f m -> (forall a, keeps f (k a)) -> keeps f (m ≫= k).
Proof.
  intros Hm Hk w r w'. rewrite bind_run. destruct (m w) as [[a|e] w1] eqn:E.
  - intros H. rewrite (Hk a _ _ _ H). by apply (Hm _ _ _ E).
  - intros H. inversion H; subst. by apply (Hm _ _ _ E).
Qed.

Lemma keeps_bind_never {X A B : Type} (f : opf_model -> X) (m : @M F PPC V A) (k : A -> M B) :
  keeps f m -> never_ok m -> keeps f (m ≫= k).
Proof.
  intros Hm Hn w r w'. rewrite bind_run. specialize (Hn w).
  destruct (m w) as [[a|e] w1] eqn:E; [done|].
  intros H. inversion H; subst. by apply (Hm _ _ _ E).
Qed.

Lemma keeps_fmap {X A B : Type} (f : opf_model -> X) (g : A -> B) (m : @M F PPC V A) :
  keeps f m -> keeps f (g <$> m).
Proof.
  intros Hm w r w'. unfold fmap, M_fmap. destruct (m w) as [[a|e] w1] eqn:E;
    intros H; inversion H; subst; by apply (Hm _ _ _ E).
Qed.

Lemma keeps_getitem {X A : Type} (f : opf_model -> X) (o : option A) :
  @keeps F PPC V X A f (getitem o).
Proof. destruct o; [apply keeps_ret | apply keeps_raise]. Qed.

Lemma keeps_read_self {X : Type} (f : opf_model -> X) : @keeps F PPC V X _ f read_self.
Proof. intros w r w' H. by inversion H. Qed.

Lemma keeps_logger_error {X : Type} (f : opf_model -> X) msg :
  @keeps F PPC V X _ f (logger_error msg).
Proof. intros w r w' H. by inversion H. Qed.

Lemma keeps_when {X : Type} (f : opf_model -> X) b (m : @M F PPC V unit) :
  keeps f m -> keeps f (when b m).
Proof. destruct b; [done|]. intros _. apply keeps_ret. Qed.

Lemma keeps_for_each {X A S : Type} (f : opf_model -> X) (xs : list A)
    (body : A -> S -> @M F PPC V S) acc :
  (forall x a, keeps f (body x a)) -> keeps f (for_each xs body acc).
Proof.
  intros Hb. revert acc. induction xs as [|x xs IH]; intros acc; cbn.
  - apply keeps_ret.
  - apply keeps_bind; [apply Hb | apply IH].
Qed.

(** One step of a proof that a computation made of reads, logging and
    raises keeps a part of the object. *)
Ltac keeps_step :=
  match goal with
  | |- keeps _ (mret _) => apply keeps_ret
  | |- keeps _ (raise _) => apply keeps_raise
  | |- keeps _ (getitem _) => apply keeps_getitem
  | |- keeps _ read_self => apply keeps_read_self
  | |- keeps _ (logger_error _) => apply keeps_logger_error
  | |- keeps _ (when _ _) => apply keeps_when
  | |- keeps _ (_ <$> _) => apply keeps_fmap
  | |- keeps _ (for_each _ _ _) => apply keeps_for_each; intros
  | |- keeps _ (_ ≫= _) => apply keeps_bind; [| intros]
  | |- keeps _ (if ?b then _ else _) => destruct b
  | |- keeps _ (match ?x with _ => _ end) => destruct x
  end.

Ltac keeps_reads :=
  unfold default_varsets, count_vars, vs_len, vs_getitem, vs_iter, list_getitem, zeros, ones,
    sparse_int_int;
  unfold np_full, rd_idx, rd_N, rd_NS, rd_order, rd_var_dat, rd_lin_dat, rd_cost_dat;
  cbv zeta;
  repeat keeps_step.

Lemma keeps_count_vars {X : Type} (f : opf_model -> X) vs : @keeps F PPC V X _ f (count_vars vs).
Proof. destruct vs; keeps_reads. Qed.

Lemma keeps_default_varsets {X : Type} (f : opf_model -> X) vs :
  @keeps F PPC V X _ f (default_varsets vs).
Proof. keeps_reads. Qed.

Lemma keeps_in_dict_and {X A : Type} (f : opf_model -> X) (field : option A) :
  @keeps F PPC V X _ f (in_dict_and field).
Proof. unfold in_dict_and. keeps_reads. Qed.

Lemma add_linear_keeps_object name A l u vs :
  @keeps F PPC V _ _ (fun o => o) (add_constraints name (Linear A l u vs)).
Proof.
  unfold add_constraints. cbv zeta.
  repeat first
    [ apply keeps_bind_never; [apply keeps_raise | apply never_ok_self_getitem]
    | apply keeps_bind; [first [apply keeps_count_vars | apply keeps_default_varsets | keeps_reads] | intros] ].
Qed.

Lemma add_costs_keeps_object name cp vs :
  @keeps F PPC V _ _ (fun o => o) (add_costs name cp vs).
Proof.
  unfold add_costs. cbv zeta.
  repeat first
    [ apply keeps_bind_never; [apply keeps_in_dict_and | apply never_ok_in_dict_and]
    | apply keeps_bind; [first [apply keeps_count_vars | apply keeps_default_varsets | keeps_reads] | intros] ].
Qed.

(** X7: the linear [add_constraints] raises on every input and on every
    object, and leaves the object as it was; only the log may have grown. *)
Theorem X7_add_linear_raises_and_changes_nothing name A l u vs w :
  exists e log', add_constraints name (Linear A l u vs) w = (Raise e, World (om w) log').
Proof.
  destruct (add_constraints name (Linear A l u vs) w) as [r w'] eqn:E.
  pose proof (add_linear_never_ok name A l u vs w) as Hn. rewrite E in Hn.
  pose proof (add_linear_keeps_object name A l u vs w r w' E) as Hk. cbn in Hk.
  destruct r as [[]|e]; [done|]. exists e, (errlog w'). destruct w'. cbn in *. by subst.
Qed.

(** X8: [add_costs] raises on every input and on every object, and leaves
    the object as it was; only the log may have grown. *)
Theorem X8_add_costs_raises_and_changes_nothing name cp vs w :
  exists e log', add_costs name cp vs w = (Raise e, World (om w) log').
Proof.
  destruct (add_costs name cp vs w) as [r w'] eqn:E.
  pose proof (add_costs_never_ok name cp vs w) as Hn. rewrite E in Hn.
  pose proof (add_costs_keeps_object name cp vs w r w' E) as Hk. cbn in Hk.
  destruct r as [[]|e]; [done|]. exists e, (errlog w'). destruct w'. cbn in *. by subst.
Qed.

(** *** Registrations and the rest of the object *)

Lemma keeps_of_object {X A : Type} (f : opf_model -> X) (m : @M F PPC V A) :
  keeps (fun o => o) m -> keeps f m.
Proof. intros Hm w r w' H. by rewrite (Hm w r w' H). Qed.

Section Untouched.
Context {X : Type} (f : @opf_model F PPC V -> X) (Hf : untouched_by_registration f).

Lemma keeps_wr_idx s upd : s = sel_var \/ s = sel_nln -> keeps f (wr_idx s upd).
Proof.
  destruct Hf as (Hv & Hn & _).
  intros Hs w r w'. unfold wr_idx. repeat (rewrite bind_run; cbn).
  destruct (l_idx (getattr (om w) s)); cbn; intros H; inversion H; subst; cbn; [|done].
  by destruct Hs as [-> | ->].
Qed.

Lemma keeps_wr_N s v : s = sel_var \/ s = sel_nln -> keeps f (wr_N s v).
Proof.
  destruct Hf as (Hv & Hn & _).
  intros Hs w r w'. unfold wr_N. repeat (rewrite bind_run; cbn).
  intros H; inversion H; subst; cbn. by destruct Hs as [-> | ->].
Qed.

Lemma keeps_wr_NS s v : s = sel_var \/ s = sel_nln -> keeps f (wr_NS s v).
Proof.
  destruct Hf as (Hv & Hn & _).
  intros Hs w r w'. unfold wr_NS. repeat (rewrite bind_run; cbn).
  intros H; inversion H; subst; cbn. by destruct Hs as [-> | ->].
Qed.

Lemma keeps_append_order s name : s = sel_var \/ s = sel_nln -> keeps f (append_order s name).
Proof.
  destruct Hf as (Hv & Hn & _).
  intros Hs w r w'. unfold append_order. repeat (rewrite bind_run; cbn).
  destruct (l_order (getattr (om w) s)); cbn; [|by intros H; inversion H].
  repeat (rewrite bind_run; cbn).
  destruct (l_NS (getattr (om w) s)); cbn; intros H; inversion H; subst; cbn; [|done].
  by destruct Hs as [-> | ->].
Qed.

Lemma keeps_wr_var_dat upd : keeps f (wr_var_dat upd).
Proof.
  destruct Hf as (_ & _ & Hd).
  intros w r w'. unfold wr_var_dat. repeat (rewrite bind_run; cbn).
  destruct (var_dat (om w)); cbn; intros H; inversion H; subst; cbn; done.
Qed.

Ltac keeps_writes :=
  first
    [ apply keeps_wr_idx; auto | apply keeps_wr_N; auto | apply keeps_wr_NS; auto
    | apply keeps_append_order; auto | apply keeps_wr_var_dat ].

Lemma keeps_register r : keeps f (register r).
Proof.
  destruct r as [name N v0 vl vu | name [N | A l u vs] | name cp vs]; cbn [register].
  - unfold add_vars, default_vec, set_i1, set_iN, set_Nof.
    repeat first
      [ keeps_writes
      | apply keeps_bind; [first [keeps_writes | keeps_reads] | intros] ].
  - unfold add_constraints, set_i1, set_iN, set_Nof.
    repeat first
      [ keeps_writes
      | apply keeps_bind; [first [keeps_writes | keeps_reads] | intros] ].
  - apply keeps_of_object, add_linear_keeps_object.
  - apply keeps_of_object, add_costs_keeps_object.
Qed.

Lemma keeps_attempt_all rs w : f (om (snd (attempt_all rs w))) = f (om w).
Proof.
  revert w. induction rs as [|r rs IH]; intros w; [done|]. cbn [attempt_all].
  destruct (register r w) as [x w1] eqn:E.
  specialize (IH w1). destruct (attempt_all rs w1) as [xs w2]. cbn in *.
  rewrite IH. by apply (keeps_register r w x w1).
Qed.

End Untouched.

Lemma rest_of_object_untouched : untouched_by_registration (@rest_of_object F PPC V).
Proof. repeat split. Qed.

(** X10: however many registrations are attempted, and whether each returns
    or raises, the case data, the user data, the [lin] and [cost] stores with
    their data and the cost parameters are unchanged; [get_ppc] still
    returns the case the object was built from. *)
Theorem X10_registrations_leave_the_rest rs w :
  let w' := snd (attempt_all rs w) in
  rest_of_object (om w') = rest_of_object (om w) /\
  get_ppc w' = (Ok (ppc (om w)), w').
Proof.
  intros w'.
  pose proof (keeps_attempt_all rest_of_object rest_of_object_untouched rs w) as H.
  split; [exact H|]. unfold get_ppc. rewrite bind_run. cbn.
  assert (Hp : untouched_by_registration (@ppc F PPC V)) by (repeat split).
  pose proof (keeps_attempt_all ppc Hp rs w) as H'. fold w' in H'. by rewrite H'.
Qed.

(** X9: on the object built by [__init__] every lookup raises [KeyError]:
    [getN], [getv], [get_idx], [linear_constraints] and
    [build_cost_params] leave the world as it was; [get_cost_params] and
    [compute_cost] first hand their message to the logger. *)
Theorem X9_fresh_model_lookups_raise (p : PPC) (log : list string) sel name x :
  let w := @World F PPC V (init p) log in
  let w' := @World F PPC V (init p) (log ++ [not_built_message]) in
  getN sel name w = (Raise KeyError, w) /\
  getv name w = (Raise KeyError, w) /\
  get_idx w = (Raise KeyError, w) /\
  linear_constraints w = (Raise KeyError, w) /\
  build_cost_params w = (Raise KeyError, w) /\
  get_cost_params name w = (Raise KeyError, w') /\
  compute_cost x name w = (Raise KeyError, w').
Proof.
  intros w w'. repeat split; try reflexivity.
  - destruct sel, name; reflexivity.
  - destruct name; reflexivity.
Qed.

(** X11: while no cost parameters are stored, [get_cost_params] logs its
    message and raises [KeyError] (the message does not stop it, line
    510 reads the missing key), and so does [compute_cost]; the object is
    unchanged. *)
Theorem X11_cost_params_before_build name x w :
  cost_params (om w) = None ->
  let w' := World (om w) (errlog w ++ [not_built_message]) in
  get_cost_params name w = (Raise KeyError, w') /\
  compute_cost x name w = (Raise KeyError, w').
Proof.
  intros Hnone w'.
  assert (Hget : get_cost_params name w = (Raise KeyError, w')).
  { unfold get_cost_params. repeat (rewrite bind_run; cbn). rewrite Hnone. cbn.
    repeat (rewrite bind_run; cbn). rewrite Hnone. done. }
  split; [done|]. unfold compute_cost. rewrite bind_run, Hget. done.
Qed.

Lemma get_cost_params_unnamed w p :
  cost_params (om w) = Some p -> get_cost_params None w = (Ok p, w).
Proof.
  intros Hp. unfold get_cost_params. repeat (rewrite bind_run; cbn). rewrite Hp. cbn.
  repeat (rewrite bind_run; cbn). rewrite Hp. cbn.
  repeat (rewrite bind_run; cbn). rewrite Hp. by destruct w.
Qed.

Lemma build_cost_params_no_blocks w nw nx ns :
  l_N (cost (om w)) = Some nw -> 0 <= nw ->
  l_N (var (om w)) = Some nx -> 0 <= nx ->
  l_NS (cost (om w)) = Some ns -> ns <= 0 ->
  build_cost_params w =
  (Ok tt, World (set_cost_params (default_params (Z.to_nat nw) (Z.to_nat nx)) (om w)) (errlog w)).
Proof.
  intros Hnw Hnw0 Hnx Hnx0 Hns Hns0.
  unfold build_cost_params, py_range, rd_N, rd_NS, sparse_zeros, zeros, ones, np_full.
  assert (E1 : (nw <? 0) = false) by lia. assert (E2 : (nx <? 0) = false) by lia.
  repeat (rewrite bind_run; cbn; rewrite ?Hnw, ?Hnx, ?Hns, ?E1, ?E2; cbn).
  rewrite seqZ_nil by lia. cbn.
  repeat (rewrite bind_run; cbn). done.
Qed.

(** X12: with no cost block to fill in, [build_cost_params] stores the
    default aggregate (N and H zero, Cw, rh, kk zero, dd and mm one, sized
    by the two totals) and returns; [get_cost_params()] on the result
    returns that aggregate and changes nothing. *)
Theorem X12_build_cost_params_without_blocks w nw nx ns :
  l_N (cost (om w)) = Some nw -> 0 <= nw ->
  l_N (var (om w)) = Some nx -> 0 <= nx ->
  l_NS (cost (om w)) = Some ns -> ns <= 0 ->
  let p := default_params (Z.to_nat nw) (Z.to_nat nx) in
  let w' := World (set_cost_params p (om w)) (errlog w) in
  build_cost_params w = (Ok tt, w') /\ get_cost_params None w' = (Ok p, w').
Proof.
  intros Hnw Hnw0 Hnx Hnx0 Hns Hns0 p w'.
  split; [by eapply build_cost_params_no_blocks | by apply get_cost_params_unnamed].
Qed.

(** X13: the value [get_cost_params] returns is the stored object itself.
    After a call that returns [p] (with a name: the stored parameters cut
    down in place to rows of that block) the store holds [p], and
    [get_cost_params()] returns [p]: the aggregate from before a named call
    is gone. *)
Theorem X13_get_cost_params_returns_the_stored_object name w p w' :
  get_cost_params name w = (Ok p, w') ->
  cost_params (om w') = Some p /\ get_cost_params None w' = (Ok p, w').
Proof.
  intros H.
  assert (Hp : cost_params (om w') = Some p).
  { unfold get_cost_params in H.
    apply bind_ok_inv in H as (? & ? & _ & H).
    apply bind_ok_inv in H as (? & ? & _ & H).
    apply bind_ok_inv in H as (? & ? & _ & H).
    apply bind_ok_inv in H as (? & ? & _ & H).
    apply bind_ok_inv in H as (? & ? & _ & H).
    apply bind_ok_inv in H as (o & w1 & H1 & H).
    inversion H1; subst. by apply getitem_ok_inv in H as [H ->]. }
  split; [done|]. by apply get_cost_params_unnamed.
Qed.

Lemma linear_constraints_no_blocks w n m ns :
  l_N (lin (om w)) = Some n -> 0 <= n ->
  l_N (var (om w)) = Some m -> 0 <= m ->
  l_NS (lin (om w)) = Some ns -> ns <= 0 ->
  linear_constraints w =
  (Ok (Matrix (Z.to_nat m) (replicate (Z.to_nat n) (replicate (Z.to_nat m) f_zero)),
       map f_neg (scale f_inf (replicate (Z.to_nat n) f_one)),
       scale f_inf (replicate (Z.to_nat n) f_one)), w).
Proof.
  intros Hn Hn0 Hm Hm0 Hns Hns0.
  unfold linear_constraints, py_range, rd_N, rd_NS, sparse_zeros, ones, np_full.
  assert (E1 : (n <? 0) = false) by lia. assert (E2 : (m <? 0) = false) by lia.
  unfold fmap, M_fmap, mret, M_ret.
  repeat (rewrite bind_run; cbn; rewrite ?Hn, ?Hm, ?Hns, ?E1, ?E2; cbn).
  rewrite seqZ_nil by lia. cbn. by destruct w.
Qed.

(** X15: after any run of completed registrations on the blank object that
    leaves a total [m >= 0] of variables: [linear_constraints] returns a
    matrix of no row and [m] columns with empty [l] and [u];
    [build_cost_params] stores the default aggregate with no row; and as
    soon as one variable block is registered [getv()] raises [KeyError]. *)
Theorem X15_readers_after_registrations rs (p : PPC) log w' m :
  successful_run rs (World (blank p) log) w' ->
  l_N (var (om w')) = Some m -> 0 <= m ->
  linear_constraints w' = (Ok (Matrix (Z.to_nat m) [], [], []), w') /\
  build_cost_params w' =
    (Ok tt, World (set_cost_params (default_params 0 (Z.to_nat m)) (om w')) (errlog w')) /\
  (forall ns, l_NS (var (om w')) = Some ns -> 1 <= ns -> getv None w' = (Raise KeyError, w')).
Proof.
  intros Hrun Hm Hm0.
  pose proof (successful_run_frames_lin_cost _ _ _ Hrun) as [Hl Hc]. cbn in Hl, Hc.
  split; [|split].
  - rewrite (linear_constraints_no_blocks w' 0 m 0); rewrite ?Hl; try done.
  - rewrite (build_cost_params_no_blocks w' 0 m 0); rewrite ?Hc; try done.
  - intros ns Hns Hpos. by eapply getv_unnamed_after_registration.
Qed.

(** X16: with at least one cost block and an order mapping without key 0
    (the registrations number the blocks from 1), [build_cost_params]
    raises [KeyError] at [order[0]] (line 311) and changes nothing. *)
Theorem X16_build_cost_params_reads_order_0 w nw nx ns ord :
  l_N (cost (om w)) = Some nw -> 0 <= nw ->
  l_N (var (om w)) = Some nx -> 0 <= nx ->
  l_NS (cost (om w)) = Some ns -> 1 <= ns ->
  l_order (cost (om w)) = Some ord -> ord !! 0 = None ->
  build_cost_params w = (Raise KeyError, w).
Proof.
  intros Hnw Hnw0 Hnx Hnx0 Hns Hns0 Hord H0.
  unfold build_cost_params, py_range, rd_N, rd_NS, sparse_zeros, zeros, ones, np_full.
  assert (E1 : (nw <? 0) = false) by lia. assert (E2 : (nx <? 0) = false) by lia.
  repeat (rewrite bind_run; cbn; rewrite ?Hnw, ?Hnx, ?Hns, ?E1, ?E2; cbn).
  rewrite seqZ_cons by lia. cbn. unfold rd_order.
  repeat (rewrite bind_run; cbn; rewrite ?Hord, ?H0; cbn).
  done.
Qed.

(** X17: the function [userdata] of the class, run on its own.  With a value
    it stores the value under the key, returns [None] and changes nothing
    else; a following call without value returns that value for the same
    key and, for any other key, what the dict held before ([None] when
    absent), leaving the world as it is. *)
Theorem X17_userdata_function_stores_and_reads k k' (v : V) w :
  let w1 := snd (userdata_method k (Some v) w) in
  userdata_method k (Some v) w = (Ok None, w1) /\
  om w1 = set_userdata (<[k := v]> (userdata (om w))) (om w) /\
  userdata_method k' None w1 =
    (Ok (if decide (k' = k) then Some v else userdata (om w) !! k'), w1).
Proof.
  intros w1. split; [done|]. split; [done|].
  rewrite userdata_method_get. subst w1. rewrite userdata_method_set. cbn.
  destruct (decide (k' = k)) as [->|Hne].
  - by rewrite lookup_insert_eq.
  - by rewrite lookup_insert_ne.
Qed.

(** *** Computations that only read *)

Lemma stateless_ret {A : Type} (a : A) : @stateless F PPC V A (mret a).
Proof. intros w r w' H. by inversion H. Qed.

Lemma stateless_raise {A : Type} e : @stateless F PPC V A (raise e).
Proof. intros w r w' H. by inversion H. Qed.

Lemma stateless_bind {A B : Type} (m : @M F PPC V A) (k : A -> M B) :
  stateless m -> (forall a, stateless (k a)) -> stateless (m ≫= k).
Proof.
  intros Hm Hk w r w'. rewrite bind_run. destruct (m w) as [[a|e] w1] eqn:E.
  - intros H. rewrite (Hk a _ _ _ H). by apply (Hm _ _ _ E).
  - intros H. inversion H; subst. by apply (Hm _ _ _ E).
Qed.

Lemma stateless_getitem {A : Type} (o : option A) : @stateless F PPC V A (getitem o).
Proof. destruct o; [apply stateless_ret | apply stateless_raise]. Qed.

Lemma stateless_read_self : @stateless F PPC V _ read_self.
Proof. intros w r w' H. by inversion H. Qed.

Lemma stateless_for_each {A S : Type} (xs : list A) (body : A -> S -> @M F PPC V S) acc :
  (forall x a, stateless (body x a)) -> stateless (for_each xs body acc).
Proof.
  intros Hb. revert acc. induction xs as [|x xs IH]; intros acc; cbn.
  - apply stateless_ret.
  - apply stateless_bind; [apply Hb | apply IH].
Qed.

Ltac stateless_step :=
  match goal with
  | |- stateless (mret _) => apply stateless_ret
  | |- stateless (raise _) => apply stateless_raise
  | |- stateless (getitem _) => apply stateless_getitem
  | |- stateless read_self => apply stateless_read_self
  | |- stateless (_ <$> _) => apply stateless_fmap
  | |- stateless (for_each _ _ _) => apply stateless_for_each; intros
  | |- stateless (_ ≫= _) => apply stateless_bind; [| intros]
  | |- stateless (if ?b then _ else _) => destruct b
  | |- stateless (match ?x with _ => _ end) => destruct x
  end.

Ltac stateless_reads :=
  unfold scatter_columns, fill_optional, sp_take_rows, np_take, vs_iter, list_getitem,
    zeros, ones, sparse_zeros, np_setslice, sp_setslice, sp_matvec, sp_vecmat, sp_add, sp_mul,
    sp_diag, np_zip, array_truth, bitwise_and_float, full_with_dtype, call_array;
  unfold np_full, rd_idx, rd_N, rd_NS, rd_order, rd_var_dat, rd_lin_dat, rd_cost_dat;
  cbv zeta;
  repeat stateless_step.

(** X18: [getN], [getv], [get_idx], [get_ppc] and [linear_constraints] change
    neither the object nor the log, whatever their outcome. *)
Theorem X18_lookups_are_read_only sel name :
  @stateless F PPC V _ (getN sel name) /\
  @stateless F PPC V _ (getv name) /\
  @stateless F PPC V _ get_idx /\
  @stateless F PPC V _ get_ppc /\
  @stateless F PPC V _ linear_constraints.
Proof.
  repeat split.
  - unfold getN. stateless_reads.
  - unfold getv. stateless_reads.
  - unfold get_idx. stateless_reads.
  - unfold get_ppc. stateless_reads.
  - unfold linear_constraints. stateless_reads.
Qed.

(** X14: [compute_cost] returns no value: on every input it raises, and the
    world it leaves is the one [get_cost_params] leaves, the statements
    after line 392 being pure computations. *)
Theorem X14_compute_cost_raises_where_get_cost_params_stops x name w :
  exists e, compute_cost x name w = (Raise e, snd (get_cost_params name w)).
Proof.
  pose proof (compute_cost_never_ok x name w) as Hn.
  unfold compute_cost in *. rewrite bind_run in *.
  destruct (get_cost_params name w) as [[cp|e] w1]; [|by exists e]. cbn [snd].
  match goal with |- exists e, ?k w1 = _ => assert (Hs : stateless k) by stateless_reads;
    destruct (k w1) as [[v|e] w2] eqn:E end; [done|].
  exists e. by rewrite (Hs _ _ _ E).
Qed.

(** *** What the cost-parameter methods write *)

Lemma keeps_store_params {X : Type} (f : @opf_model F PPC V -> X) p :
  (forall p o, f (set_cost_params p o) = f o) ->
  keeps f (o ← read_self; write_self (set_cost_params p o)).
Proof. intros Hf w r w' H. inversion H; subst. cbn. apply Hf. Qed.

Lemma keeps_of_stateless {X A : Type} (f : @opf_model F PPC V -> X) (m : @M F PPC V A) :
  stateless m -> keeps f m.
Proof. intros Hm w r w' H. by rewrite (Hm w r w' H). Qed.

Lemma keeps_upd_params {X : Type} (f : @opf_model F PPC V -> X) upd :
  (forall p o, f (set_cost_params p o) = f o) ->
  (forall p, stateless (upd p)) -> keeps f (upd_params upd).
Proof.
  intros Hf Hu w r w'. unfold upd_params. repeat (rewrite bind_run; cbn).
  destruct (cost_params (om w)) as [p|]; cbn; [|by intros H; inversion H].
  rewrite bind_run. destruct (upd p w) as [[p'|e] w1] eqn:E; pose proof (Hu p _ _ _ E) as ->.
  - rewrite bind_run. cbn. intros H. inversion H; subst. cbn. apply Hf.
  - by intros H; inversion H.
Qed.

Lemma stateless_getN sel name : @stateless F PPC V _ (getN sel name).
Proof. unfold getN. stateless_reads. Qed.

Lemma all_but_cost_params_set p (o : @opf_model F PPC V) :
  all_but_cost_params (set_cost_params p o) = all_but_cost_params o.
Proof. done. Qed.

Lemma build_cost_params_keeps :
  @keeps F PPC V _ _ all_but_cost_params build_cost_params.
Proof.
  unfold build_cost_params. cbv zeta.
  repeat first
    [ apply keeps_store_params, all_but_cost_params_set
    | apply keeps_bind; [apply keeps_of_stateless; stateless_reads | intros] ].
Qed.

Lemma get_cost_params_keeps name :
  @keeps F PPC V _ _ all_but_cost_params (get_cost_params name).
Proof.
  unfold get_cost_params.
  apply keeps_bind; [apply keeps_read_self|intros o].
  apply keeps_bind; [apply keeps_when, keeps_logger_error|intros _].
  apply keeps_bind; [apply keeps_read_self|intros o'].
  apply keeps_bind; [apply keeps_getitem|intros _].
  apply keeps_bind; [|intros _; apply keeps_bind; [apply keeps_read_self | intros; apply keeps_getitem]].
  destruct name as [nm|]; [|apply keeps_ret].
  apply keeps_bind; [apply keeps_of_stateless, stateless_getN|intros n].
  destruct (negb (n =? 0)); [|apply keeps_ret].
  repeat first
    [ apply keeps_upd_params; [apply all_but_cost_params_set | intros; stateless_reads]
    | apply keeps_bind; [first [ apply keeps_upd_params; [apply all_but_cost_params_set | intros; stateless_reads]
                               | apply keeps_of_stateless; stateless_reads ] | intros] ].
Qed.

(** X20: [build_cost_params] and [get_cost_params] write nothing but the
    stored cost parameters: every other part of the object is the same
    after the call, whether it returns or raises. *)
Theorem X20_cost_params_is_all_they_write name w :
  all_but_cost_params (om (snd (build_cost_params w))) = all_but_cost_params (om w) /\
  all_but_cost_params (om (snd (get_cost_params name w))) = all_but_cost_params (om w).
Proof.
  split.
  - destruct (build_cost_params w) as [r w'] eqn:E. by apply (build_cost_params_keeps w r w').
  - destruct (get_cost_params name w) as [r w'] eqn:E. by apply (get_cost_params_keeps name w r w').
Qed.

(** *** Block names *)

Lemma well_named_blank : well_named blank_ledger.
Proof.
  exists (Idx ∅ ∅ ∅), 0, ∅. cbn.
  assert (He : forall (A : Type) (K : Type) `{Countable K} (k : K), ~ is_Some ((∅ : gmap K A) !! k)).
  { intros A K ? ? k [x Hx]. by rewrite lookup_empty in Hx. }
  split; [done|]. split; [done|]. split; [done|]. split; [lia|].
  split; [|split; [|split; [|split]]].
  - intros k. split; [intros H; by apply He in H | lia].
  - intros k k' name H. by rewrite lookup_empty in H.
  - intros name. split; [intros H; by apply He in H|]. intros [k Hk]. by rewrite lookup_empty in Hk.
  - intros name. split; intros H; by apply He in H.
  - intros name. split; intros H; by apply He in H.
Qed.

Lemma well_named_appended l idx t ns ord name N :
  l_idx l = Some idx -> l_NS l = Some ns -> l_order l = Some ord ->
  idx_N idx !! name = None ->
  well_named l -> well_named (appended idx t ns ord name N).
Proof.
  intros Hidx Hns Hord Hfresh (idx' & ns' & ord' & Hidx' & Hns' & Hord' & Hpos & Hkeys & Hinj & Hnames & Hi1 & HiN).
  assert (idx' = idx) by congruence. assert (ns' = ns) by congruence.
  assert (ord' = ord) by congruence. subst idx' ns' ord'.
  exists (Idx (<[name := t + 1]> (idx_i1 idx)) (<[name := t + N]> (idx_iN idx))
              (<[name := N]> (idx_N idx))), (ns + 1), (<[ns + 1 := name]> ord).
  cbn. split; [done|]. split; [done|]. split; [done|]. split; [lia|].
  assert (Hold : forall k nm, ord !! k = Some nm -> k <> ns + 1 /\ nm <> name).
  { intros k nm Hk. split.
    - assert (1 <= k <= ns) by (apply Hkeys; eauto). lia.
    - intros ->. assert (is_Some (idx_N idx !! name)) as [x Hx] by (apply Hnames; eauto).
      congruence. }
  split; [|split; [|split; [|split]]].
  - intros k. rewrite lookup_insert_is_Some', Hkeys. lia.
  - intros k k' nm H1 H2.
    apply lookup_insert_Some in H1 as [[<- <-]|[Hne1 H1]];
      apply lookup_insert_Some in H2 as [[<- ?]|[Hne2 H2]]; try done.
    + by destruct (Hold _ _ H2).
    + subst nm. by destruct (Hold _ _ H1).
    + by eapply Hinj.
  - intros nm. rewrite lookup_insert_is_Some', Hnames. split.
    + intros [<-|[k Hk]].
      * exists (ns + 1). by rewrite lookup_insert_eq.
      * exists k. rewrite lookup_insert_ne; [done|]. by destruct (Hold _ _ Hk).
    + intros [k Hk]. apply lookup_insert_Some in Hk as [[_ <-]|[_ Hk]]; eauto.
  - intros nm. by rewrite !lookup_insert_is_Some', Hi1.
  - intros nm. by rewrite !lookup_insert_is_Some', HiN.
Qed.

Lemma register_preserves_names r w w' :
  register r w = (Ok tt, w') -> errlog w' = errlog w ->
  (forall s, well_named (getattr (om w) s)) ->
  forall s, well_named (getattr (om w') s).
Proof.
  intros Hrun Hlog Hinv.
  destruct r as [name N v0 vl vu | name [N | A l u vs] | name cp vs]; cbn in Hrun.
  - apply add_vars_returns in Hrun
      as (idx & t & ns & ord & Hidx & Ht & Hns & Hord & Hvar & Hn & Hl & Hc & Hmsg).
    pose proof (silent_means_fresh _ _ _ _ _ Hmsg Hlog) as Hfresh.
    intros []; cbn; rewrite ?Hn, ?Hl, ?Hc;
      try apply (Hinv sel_lin); try apply (Hinv sel_nln); try apply (Hinv sel_cost).
    rewrite Hvar. apply (well_named_appended (var (om w))); try done. apply (Hinv sel_var).
  - apply add_nonlinear_returns in Hrun
      as (idx & t & ns & ord & Hidx & Ht & Hns & Hord & Hnln & Hv & Hl & Hc & Hmsg).
    pose proof (silent_means_fresh _ _ _ _ _ Hmsg Hlog) as Hfresh.
    intros []; cbn; rewrite ?Hv, ?Hl, ?Hc;
      try apply (Hinv sel_lin); try apply (Hinv sel_var); try apply (Hinv sel_cost).
    rewrite Hnln. apply (well_named_appended (nln (om w))); try done. apply (Hinv sel_nln).
  - by apply never_ok_not_ok in Hrun; [|apply add_linear_never_ok].
  - by apply never_ok_not_ok in Hrun; [|apply add_costs_never_ok].
Qed.

(** X19: block names.  If in each store the order mapping numbers the blocks
    1..NS, no name occurs twice in it, and the index maps [i1], [iN] and [N]
    have exactly the ordered names as keys, then the same holds after any
    run of completed registrations. *)
Theorem X19_successful_run_keeps_names rs w w' :
  successful_run rs w w' ->
  (forall s, well_named (getattr (om w) s)) ->
  forall s, well_named (getattr (om w') s).
Proof.
  induction 1 as [w | r rs w w1 w2 Hr Hlog Hrun IH]; [done|].
  intros Hinv. apply IH. by apply (register_preserves_names r w w1).
Qed.

End MoreFacts.

(** ** The further properties on concrete data *)

Lemma X1_add_vars_then_get_idx_witness :
  get_idx w_a =
    (Ok (Idx {["a" := 1]} {["a" := 2]} {["a" := 2]}, Idx ∅ ∅ ∅, Idx ∅ ∅ ∅, Idx ∅ ∅ ∅), w_a) /\
  l_N (var (om w_a)) = Some 2.
Proof.
  apply (X1_add_vars_then_get_idx "a" 2 None None None blank_world w_a
           (Idx ∅ ∅ ∅) (Idx ∅ ∅ ∅) (Idx ∅ ∅ ∅) (Idx ∅ ∅ ∅) 0); vm_compute; reflexivity.
Defined.

Lemma X2_add_vars_stores_vectors_witness :
  exists d d', var_dat (om blank_world) = Some d /\ var_dat (om w_pg) = Some d' /\
    d_v0 d' !! "Pg" = Some [XFin 0; XFin 0; XFin 0] /\
    d_vl d' !! "Pg" = Some [XFin 0; XFin 0; XFin 0] /\
    d_vu d' !! "Pg" = Some [XFin 100; XFin 100; XFin 100] /\
    forall other, other <> "Pg" ->
      d_v0 d' !! other = d_v0 d !! other /\ d_vl d' !! other = d_vl d !! other /\
      d_vu d' !! other = d_vu d !! other.
Proof.
  assert (H : add_vars "Pg" 3 None (Some [XFin 0; XFin 0; XFin 0])
                (Some [XFin 100; XFin 100; XFin 100]) blank_world = (Ok tt, w_pg))
    by (vm_compute; reflexivity).
  exact (X2_add_vars_stores_vectors "Pg" 3 None (Some [XFin 0; XFin 0; XFin 0])
           (Some [XFin 100; XFin 100; XFin 100]) blank_world w_pg H).
Defined.

Lemma X3_add_vars_returns_iff_defaults_built_witness :
  (fst (add_vars "a" (-1) None None None blank_world) = Ok tt <->
   (needs_default (None : option (list xfloat)) = true -> is_ok (fst (zeros (-1) blank_world)) = true) /\
   (needs_default (None : option (list xfloat)) = true -> is_ok (fst (ones (-1) blank_world)) = true) /\
   (needs_default (None : option (list xfloat)) = true -> is_ok (fst (ones (-1) blank_world)) = true)) /\
  (fst (add_vars "a" 2 None (Some [XFin 0; XFin 0]) None blank_world) = Ok tt <->
   (needs_default (None : option (list xfloat)) = true -> is_ok (fst (zeros 2 blank_world)) = true) /\
   (needs_default (Some [XFin 0; XFin 0]) = true -> is_ok (fst (ones 2 blank_world)) = true) /\
   (needs_default (None : option (list xfloat)) = true -> is_ok (fst (ones 2 blank_world)) = true)).
Proof.
  split.
  - apply (X3_add_vars_returns_iff_defaults_built "a" (-1) None None None blank_world
             (Idx ∅ ∅ ∅) 0 0 ∅ (VarData ∅ ∅ ∅)); reflexivity.
  - apply (X3_add_vars_returns_iff_defaults_built "a" 2 None (Some [XFin 0; XFin 0]) None blank_world
             (Idx ∅ ∅ ∅) 0 0 ∅ (VarData ∅ ∅ ∅)); reflexivity.
Defined.

Lemma X4_add_vars_negative_count_witness :
  fst (add_vars "a" (-1) None None None blank_world) = Raise ValueError /\
  om (snd (add_vars "a" (-1) None None None blank_world)) = om blank_world.
Proof.
  apply (X4_add_vars_negative_count "a" (-1) None None None blank_world (Idx ∅ ∅ ∅));
    [reflexivity | lia | reflexivity].
Defined.

Lemma X5_add_vars_without_data_is_partial_witness :
  fst (add_vars "a" 2 None None None w_nodata) = Raise KeyError /\
  l_idx (var (om (snd (add_vars "a" 2 None None None w_nodata)))) =
    Some (Idx (<["a" := 0 + 1]> ∅) (<["a" := 0 + 2]> ∅) (<["a" := 2]> ∅)) /\
  l_N (var (om (snd (add_vars "a" 2 None None None w_nodata)))) = Some 0 /\
  l_NS (var (om (snd (add_vars "a" 2 None None None w_nodata)))) = l_NS (var (om w_nodata)) /\
  l_order (var (om (snd (add_vars "a" 2 None None None w_nodata)))) = l_order (var (om w_nodata)).
Proof.
  apply (X5_add_vars_without_data_is_partial "a" 2 None None None w_nodata (Idx ∅ ∅ ∅) 0);
    [reflexivity | reflexivity | reflexivity | intros _; lia].
Defined.

Lemma X6_add_nonlinear_runs_witness :
  add_constraints "g" (Nonlinear 4) blank_world =
  (Ok tt,
   World (set_ledger sel_nln (appended (Idx ∅ ∅ ∅) 0 0 ∅ "g" 4) (om blank_world))
         (errlog blank_world ++
          (if contains (idx_N (Idx ∅ ∅ ∅)) "g"
           then ["opf_model.add_constraints: nonlinear constraint set named '" +:+ "g"
                 +:+ "' already exists"]
           else []))).
Proof.
  apply (X6_add_nonlinear_runs "g" 4 blank_world (Idx ∅ ∅ ∅) 0 0 ∅); reflexivity.
Defined.

Lemma X11_cost_params_before_build_witness :
  get_cost_params (Some "c") blank_world =
    (Raise KeyError, World (om blank_world) (errlog blank_world ++ [not_built_message])) /\
  compute_cost [XFin 3] (Some "c") blank_world =
    (Raise KeyError, World (om blank_world) (errlog blank_world ++ [not_built_message])).
Proof.
  apply (X11_cost_params_before_build (Some "c") [XFin 3] blank_world). reflexivity.
Defined.

Lemma X12_build_cost_params_without_blocks_witness :
  build_cost_params w_x = (Ok tt, with_params (default_params 0 1) w_x) /\
  get_cost_params None (with_params (default_params 0 1) w_x) =
    (Ok (default_params 0 1), with_params (default_params 0 1) w_x).
Proof.
  apply (X12_build_cost_params_without_blocks w_x 0 1 0); solve [reflexivity | lia].
Defined.

Lemma X13_get_cost_params_returns_the_stored_object_witness :
  cost_params (om (with_params p_no_rows w_cost1)) = Some p_no_rows /\
  get_cost_params None (with_params p_no_rows w_cost1) = (Ok p_no_rows, with_params p_no_rows w_cost1).
Proof.
  apply (X13_get_cost_params_returns_the_stored_object (Some "c") w_cost1_built p_no_rows
           (with_params p_no_rows w_cost1)).
  vm_compute. reflexivity.
Defined.

Lemma X15_readers_after_registrations_witness :
  linear_constraints c1_final = (Ok (Matrix (Z.to_nat 5) [], [], []), c1_final) /\
  build_cost_params c1_final =
    (Ok tt, World (set_cost_params (default_params 0 (Z.to_nat 5)) (om c1_final)) (errlog c1_final)) /\
  (forall ns, l_NS (var (om c1_final)) = Some ns -> 1 <= ns ->
              getv None c1_final = (Raise KeyError, c1_final)).
Proof.
  apply (X15_readers_after_registrations c1_regs tt [] c1_final 5);
    [exact c1_regs_run | reflexivity | lia].
Defined.

Lemma X16_build_cost_params_reads_order_0_witness : build_cost_params w_cost1 = (Raise KeyError, w_cost1).
Proof.
  apply (X16_build_cost_params_reads_order_0 w_cost1 1 1 1 {[1 := "c"]});
    solve [reflexivity | lia].
Defined.

Lemma well_named_blank_world (s : selector) : well_named (getattr (om blank_world) s).
Proof. destruct s; apply well_named_blank. Qed.

Lemma X19_successful_run_keeps_names_witness :
  successful_run c1_regs blank_world c1_final /\
  (forall s, well_named (getattr (om blank_world) s)) /\
  (forall s, well_named (getattr (om c1_final) s)).
Proof.
  split; [exact c1_regs_run|]. split; [exact well_named_blank_world|].
  exact (X19_successful_run_keeps_names c1_regs blank_world c1_final c1_regs_run well_named_blank_world).
Defined.
